(** * daytona_adk: the tool adapters and the sandbox lifecycle of the plugin

    A shallow embedding of [daytona_adk/tools.py] and [daytona_adk/plugin.py].
    Python values are a small inductive type, text is a list of Unicode code
    points, the Daytona sandbox is an interface with an arbitrary state, and
    every [run_async] is a program in a state-and-exception monad that also
    records the sandbox calls it makes. *)

From stdpp Require Import base tactics option list strings pretty gmap.
From Stdlib Require Import ZArith NArith Lia Ascii.

Set Warnings "-register-all".

Local Open Scope N_scope.

(** ** Text and bytes *)

(** A Python [str] is a sequence of code points; a [bytes] object is a
    sequence of numbers below 256. *)
Abbreviation str := (list N).
Abbreviation bytes := (list N).

(** [lit s] is the Python literal written with the ASCII characters of [s]. *)
Definition lit (s : string) : str :=
  (fun a => N_of_ascii a) <$> String.list_ascii_of_string s.

(** *** [str.encode("utf-8")] and [bytes.decode("utf-8")], strict mode *)

Definition is_surrogate (c : N) : bool := (0xD800 <=? c) && (c <=? 0xDFFF).

(** One code point to its UTF-8 bytes; [None] stands for UnicodeEncodeError
    (a lone surrogate) or a number that is no code point at all. *)
Definition utf8_encode_cp (c : N) : option bytes :=
  if c <? 0x80 then Some [c]
  else if c <? 0x800 then Some [0xC0 + c / 64; 0x80 + c mod 64]
  else if c <? 0x10000 then
    if is_surrogate c then None
    else Some [0xE0 + c / 4096; 0x80 + (c / 64) mod 64; 0x80 + c mod 64]
  else if c <? 0x110000 then
    Some [0xF0 + c / 262144; 0x80 + (c / 4096) mod 64;
          0x80 + (c / 64) mod 64; 0x80 + c mod 64]
  else None.

Fixpoint utf8_encode (s : str) : option bytes :=
  match s with
  | [] => Some []
  | c :: s' =>
      match utf8_encode_cp c, utf8_encode s' with
      | Some b, Some bs => Some (b ++ bs)
      | _, _ => None
      end
  end.

Definition is_cont (b : N) : bool := (0x80 <=? b) && (b <? 0xC0).

(** The strict decoder: overlong forms, surrogates, values above U+10FFFF,
    stray continuation bytes and truncated sequences are all rejected
    ([None] stands for UnicodeDecodeError). *)
Fixpoint utf8_decode (bs : bytes) : option str :=
  match bs with
  | [] => Some []
  | b0 :: r0 =>
      if b0 <? 0x80 then cons b0 <$> utf8_decode r0
      else if b0 <? 0xC2 then None
      else if b0 <? 0xE0 then
        match r0 with
        | b1 :: r1 =>
            if is_cont b1
            then cons ((b0 - 0xC0) * 64 + (b1 - 0x80)) <$> utf8_decode r1
            else None
        | _ => None
        end
      else if b0 <? 0xF0 then
        match r0 with
        | b1 :: b2 :: r2 =>
            let c := (b0 - 0xE0) * 4096 + (b1 - 0x80) * 64 + (b2 - 0x80) in
            if is_cont b1 && is_cont b2 && (0x800 <=? c) && negb (is_surrogate c)
            then cons c <$> utf8_decode r2
            else None
        | _ => None
        end
      else if b0 <? 0xF5 then
        match r0 with
        | b1 :: b2 :: b3 :: r3 =>
            let c := (b0 - 0xF0) * 262144 + (b1 - 0x80) * 4096
                     + (b2 - 0x80) * 64 + (b3 - 0x80) in
            if is_cont b1 && is_cont b2 && is_cont b3
               && (0x10000 <=? c) && (c <? 0x110000)
            then cons c <$> utf8_decode r3
            else None
        | _ => None
        end
      else None
  end.

(** Text that UTF-8 can carry: every element is a Unicode scalar value. *)
Definition scalar_value (c : N) : Prop := c < 0x110000 ∧ is_surrogate c = false.
Definition encodable (s : str) : Prop := Forall scalar_value s.

(** ** Python values *)

(** The values an argument mapping or a sandbox response can hold: the JSON
    shapes plus [bytes]. Dictionaries nested in a value keep their insertion
    order; only their emptiness and their keys are ever looked at. *)
Inductive PyVal : Type :=
  | VNone
  | VBool (b : bool)
  | VInt (z : Z)
  | VStr (s : str)
  | VBytes (b : bytes)
  | VList (l : list PyVal)
  | VDict (d : list (str * PyVal)).

(** [Dict[str, Any]]: the argument mapping of a call and the result mapping
    of a tool. *)
Abbreviation dict := (gmap (list N) PyVal).

(** [args.get(key, default)] and [args.get(key)]. *)
Definition get (args : dict) (key : string) (default : PyVal) : PyVal :=
  match args !! lit key with
  | Some v => v
  | None => default
  end.

Definition get_opt (args : dict) (key : string) : PyVal := get args key VNone.

(** [key in mapping]. *)
Definition contains (m : dict) (key : string) : bool :=
  match m !! lit key with Some _ => true | None => false end.

(** Instances of [Exception]. [str(e)] is the message. *)
Inductive exn_kind : Type :=
  | AttributeError
  | TypeError
  | UnicodeEncodeError
  | UnicodeDecodeError
  | ProviderError.

Record exn : Type := Exn { exn_class : exn_kind; exn_message : str }.

Definition str_of_exn (e : exn) : str := exn_message e.

(** What a Python expression evaluates to: a value, or a raised exception. *)
Inductive outcome (A : Type) : Type :=
  | Return (a : A)
  | Raise (e : exn).
Arguments Return {A} a.
Arguments Raise {A} e.

(** The parts of the interpreter the plugin relies on but that are no part
    of it: case mapping outside ASCII, the text of a value that is not a
    [str] inside an f-string, and the wording of built-in error messages. *)
Class PyRuntime : Type := {
  unicode_lower : str → str;
  py_repr : PyVal → str;
  builtin_message : exn_kind → PyVal → str
}.

Section Builtins.
Context `{PyRuntime}.

Definition builtin_error (k : exn_kind) (v : PyVal) : exn :=
  Exn k (builtin_message k v).

(** Truth value of an object, as [if x:] and [x or y] test it. *)
Definition truthy (v : PyVal) : bool :=
  match v with
  | VNone => false
  | VBool b => b
  | VInt z => negb (Z.eqb z 0)
  | VStr s => negb (bool_decide (s = []))
  | VBytes b => negb (bool_decide (b = []))
  | VList l => match l with [] => false | _ => true end
  | VDict d => match d with [] => false | _ => true end
  end.

(** [len(x)]: TypeError for objects without a length. *)
Definition py_len (v : PyVal) : outcome nat :=
  match v with
  | VStr s => Return (length s)
  | VBytes b => Return (length b)
  | VList l => Return (length l)
  | VDict d => Return (length d)
  | _ => Raise (builtin_error TypeError v)
  end.

(** [x[:100]]: only sequences can be sliced. *)
Definition py_slice100 (v : PyVal) : outcome PyVal :=
  match v with
  | VStr s => Return (VStr (take 100 s))
  | VBytes b => Return (VBytes (take 100 b))
  | VList l => Return (VList (take 100 l))
  | _ => Raise (builtin_error TypeError v)
  end.

Definition ascii_lower (c : N) : N :=
  if (65 <=? c) && (c <=? 90) then c + 32 else c.

Definition is_ascii (s : str) : bool := forallb (fun c => c <? 128) s.

Definition str_lower (s : str) : str :=
  if is_ascii s then ascii_lower <$> s else unicode_lower s.

(** [x.lower()]: a method of [str] and of [bytes] only. *)
Definition py_lower (v : PyVal) : outcome PyVal :=
  match v with
  | VStr s => Return (VStr (str_lower s))
  | VBytes b => Return (VBytes (ascii_lower <$> b))
  | _ => Raise (builtin_error AttributeError v)
  end.

(** [x.encode("utf-8")]: a method of [str] only. *)
Definition py_encode (v : PyVal) : outcome PyVal :=
  match v with
  | VStr s =>
      match utf8_encode s with
      | Some b => Return (VBytes b)
      | None => Raise (builtin_error UnicodeEncodeError v)
      end
  | _ => Raise (builtin_error AttributeError v)
  end.

(** [x.decode("utf-8")]: a method of [bytes] only. *)
Definition py_decode (v : PyVal) : outcome PyVal :=
  match v with
  | VBytes b =>
      match utf8_decode b with
      | Some s => Return (VStr s)
      | None => Raise (builtin_error UnicodeDecodeError v)
      end
  | _ => Raise (builtin_error AttributeError v)
  end.

(** [f"{x}"]: a [str] is inserted as it is. *)
Definition py_format (v : PyVal) : str :=
  match v with
  | VStr s => s
  | _ => py_repr v
  end.

(** [x == "literal"]: only a [str] can be equal to a [str]. *)
Definition str_eq (v : PyVal) (s : string) : bool :=
  match v with
  | VStr t => bool_decide (t = lit s)
  | _ => false
  end.

Fixpoint join_strs (sep : str) (l : list str) : str :=
  match l with
  | [] => []
  | [s] => s
  | s :: l' => s ++ sep ++ join_strs sep l'
  end.

Definition as_str (v : PyVal) : option str :=
  match v with VStr s => Some s | _ => None end.

(** [sep.join(x)]: [x] must be iterable and yield only [str]. Iterating a
    [str] yields its characters, a [dict] its keys, [bytes] numbers. *)
Definition py_join (sep : str) (v : PyVal) : outcome str :=
  match v with
  | VList l =>
      match mapM as_str l with
      | Some ss => Return (join_strs sep ss)
      | None => Raise (builtin_error TypeError v)
      end
  | VStr s => Return (join_strs sep ((fun c => [c]) <$> s))
  | VDict d => Return (join_strs sep (fst <$> d))
  | VBytes [] => Return []
  | _ => Raise (builtin_error TypeError v)
  end.

(** [f"{n}"] for the number [id(self)]. *)
Definition decimal (n : N) : str := lit (pretty n).
End Builtins.

(** ** The sandbox *)

(** [daytona.CodeRunParams], a plain data class. *)
Record CodeRunParams : Type := { params_env : PyVal; params_argv : PyVal }.

(** What [process.code_run] and [process.exec] answer with. *)
Record ExecuteResponse : Type := { result : PyVal; exit_code : PyVal }.

(** [daytona.SessionExecuteRequest] and the answer to it. *)
Record SessionExecuteRequest : Type := { req_command : PyVal; runAsync : bool }.
Record SessionExecuteResponse : Type := { output : PyVal; session_exit_code : PyVal }.

(** The Daytona client is a collaborator from outside the repository: a
    sandbox is any state [S] with these operations, each of which may answer
    or raise. Building a [SessionExecuteRequest] validates its fields and
    may raise as well. *)
Class Sandbox (S : Type) : Type := {
  code_run : PyVal → option CodeRunParams → PyVal → S → outcome ExecuteResponse * S;
  exec : PyVal → PyVal → PyVal → PyVal → S → outcome ExecuteResponse * S;
  upload_file : PyVal → PyVal → S → outcome unit * S;
  download_file : PyVal → S → outcome PyVal * S;
  delete_file : PyVal → S → outcome unit * S;
  create_session : PyVal → S → outcome unit * S;
  execute_session_command :
    PyVal → SessionExecuteRequest → PyVal → S → outcome SessionExecuteResponse * S;
  new_session_execute_request : PyVal → bool → outcome SessionExecuteRequest
}.

(** The calls a tool makes on its sandbox, with their arguments. *)
Inductive Call : Type :=
  | CodeRun (code : PyVal) (params : option CodeRunParams) (timeout : PyVal)
  | Exec (command cwd env timeout : PyVal)
  | UploadFile (content path : PyVal)
  | DownloadFile (path : PyVal)
  | DeleteFile (path : PyVal)
  | CreateSession (session_id : PyVal)
  | ExecuteSessionCommand (session_id : PyVal) (req : SessionExecuteRequest)
                          (timeout : PyVal).

(** One entry of the call log: the call, and the exception it raised if it
    raised one. *)
Record Event : Type := { ev_call : Call; ev_raised : option exn }.

Definition raised {A} (o : outcome A) : option exn :=
  match o with Return _ => None | Raise e => Some e end.

(** ** Programs *)

Section Tools.
Context `{PyRuntime} {S : Type} `{Sandbox S}.

(** The world a tool runs in: the sandbox, and the log of the calls made
    on it, oldest first. *)
Record World : Type := { sandbox : S; calls : list Event }.

Definition M (A : Type) : Type := World → outcome A * World.

Definition ret {A} (a : A) : M A := fun w => (Return a, w).

Definition bind {A B} (m : M A) (k : A → M B) : M B :=
  fun w =>
    match m w with
    | (Return a, w') => k a w'
    | (Raise e, w') => (Raise e, w')
    end.

(** An expression evaluated for its value or its exception. *)
Definition eval {A} (o : outcome A) : M A := fun w => (o, w).

(** [try: body / except Exception as e: handler(e)]. *)
Definition try_except {A} (body : M A) (handler : exn → M A) : M A :=
  fun w =>
    match body w with
    | (Return a, w') => (Return a, w')
    | (Raise e, w') => handler e w'
    end.

(** A call on [self.sandbox]: it runs against the sandbox and is logged. *)
Definition call {A} (c : Call) (op : S → outcome A * S) : M A :=
  fun w =>
    let '(o, s') := op (sandbox w) in
    (o, {| sandbox := s'; calls := calls w ++ [{| ev_call := c; ev_raised := raised o |}] |}).

Notation "'let*' x := m 'in' k" := (bind m (fun x => k))
  (at level 10, x name, m at level 100, k at level 200).

(** *** [ExecuteCodeTool.run_async]

    [self_id] is [id(self)], the address of the tool object. *)
Definition script_path (self_id : N) (ext : string) : str :=
  lit "/tmp/script_" ++ decimal self_id ++ lit "." ++ lit ext.

Definition ts_node_command : string :=
  "ts-node --transpile-only --skipProject --compilerOptions '{" ++
  String (ascii_of_N 34) "module" ++ String (ascii_of_N 34) ":" ++
  String (ascii_of_N 34) "commonjs" ++ String (ascii_of_N 34) "," ++
  String (ascii_of_N 34) "moduleResolution" ++ String (ascii_of_N 34) ":" ++
  String (ascii_of_N 34) "node" ++ String (ascii_of_N 34) "}' ".

Definition exec_result (response : ExecuteResponse) : dict :=
  {[ lit "result" := result response; lit "exit_code" := exit_code response ]}.

Definition ExecuteCodeTool_run_async (self_id : N) (args : dict) : M dict :=
  let code := get args "code" (VStr []) in
  let* language := eval (py_lower (get args "language" (VStr (lit "python")))) in
  let env := get_opt args "env" in
  let argv := get_opt args "argv" in
  let timeout := get_opt args "timeout" in
  (* logger.debug(f"... {len(code)} ...") *)
  let* _ := eval (py_len code) in
  try_except
    (if str_eq language "python" then
       let params :=
         if truthy env || truthy argv
         then Some {| params_env := env; params_argv := argv |}
         else None in
       let* response := call (CodeRun code params timeout) (code_run code params timeout) in
       ret (exec_result response)
     else if str_eq language "javascript" || str_eq language "typescript" then
       let ext := if str_eq language "javascript" then "js" else "ts" in
       let path := VStr (script_path self_id ext) in
       let* content := eval (py_encode code) in
       let* _ := call (UploadFile content path) (upload_file content path) in
       let cmd :=
         if str_eq language "javascript"
         then lit "node " ++ script_path self_id ext
         else lit ts_node_command ++ script_path self_id ext in
       let* cmd := (if truthy argv
                    then let* joined := eval (py_join (lit " ") argv) in
                         ret (cmd ++ lit " " ++ joined)
                    else ret cmd) in
       let* response := call (Exec (VStr cmd) VNone env timeout)
                             (exec (VStr cmd) VNone env timeout) in
       let* _ := call (DeleteFile path) (delete_file path) in
       ret (exec_result response)
     else
       ret {[ lit "error" := VStr (lit "Unsupported language: " ++ py_format language);
              lit "exit_code" := VInt (-1) ]})
    (fun e => ret {[ lit "error" := VStr (str_of_exn e); lit "exit_code" := VInt (-1) ]}).

(** The f-string of the debug line of the two command tools evaluates
    [command[:100]] and [len(command)]. *)
Definition log_command (command : PyVal) : M unit :=
  let* _ := eval (py_slice100 command) in
  let* _ := eval (py_len command) in
  ret tt.

(** *** [ExecuteCommandTool.run_async] *)
Definition ExecuteCommandTool_run_async (args : dict) : M dict :=
  let command := get args "command" (VStr []) in
  let cwd := get_opt args "cwd" in
  let env := get_opt args "env" in
  let timeout := get_opt args "timeout" in
  let* _ := log_command command in
  try_except
    (let* response := call (Exec command cwd env timeout) (exec command cwd env timeout) in
     ret (exec_result response))
    (fun e => ret {[ lit "error" := VStr (str_of_exn e); lit "exit_code" := VInt (-1) ]}).

(** *** [UploadFileTool.run_async] *)
Definition UploadFileTool_run_async (args : dict) : M dict :=
  let file_path := get args "file_path" (VStr []) in
  let content := get args "content" (VStr []) in
  (* logger.debug(f"... {len(content)} ...") *)
  let* _ := eval (py_len content) in
  try_except
    (let* content_bytes := eval (py_encode content) in
     let* _ := call (UploadFile content_bytes file_path) (upload_file content_bytes file_path) in
     ret {[ lit "success" := VBool true; lit "path" := file_path ]})
    (fun e => ret {[ lit "error" := VStr (str_of_exn e); lit "success" := VBool false ]}).

(** *** [ReadFileTool.run_async] *)
Definition ReadFileTool_run_async (args : dict) : M dict :=
  let file_path := get args "file_path" (VStr []) in
  try_except
    (let* content_bytes := call (DownloadFile file_path) (download_file file_path) in
     let* content := eval (py_decode content_bytes) in
     let* _ := eval (py_len content) in
     ret {[ lit "content" := content; lit "path" := file_path ]})
    (fun e => ret {[ lit "error" := VStr (str_of_exn e); lit "content" := VNone ]}).

(** *** [StartLongRunningCommandTool.run_async] *)
Definition session_prefix : string := "long-running-".

Definition session_id_of (self_id : N) : str := lit session_prefix ++ decimal self_id.

Definition StartLongRunningCommandTool_run_async (self_id : N) (args : dict) : M dict :=
  let command := get args "command" (VStr []) in
  let timeout := get_opt args "timeout" in
  let session_id := VStr (session_id_of self_id) in
  let* _ := log_command command in
  try_except
    (let* _ := call (CreateSession session_id) (create_session session_id) in
     let* request := eval (new_session_execute_request command true) in
     let* response := call (ExecuteSessionCommand session_id request timeout)
                     (execute_session_command session_id request timeout) in
     ret {[ lit "session_id" := session_id;
            lit "output" := (if truthy (output response) then output response
                             else VStr []);
            lit "exit_code" := session_exit_code response ]})
    (fun e => ret {[ lit "error" := VStr (str_of_exn e); lit "exit_code" := VInt (-1) ]}).

(** The five tools that [DaytonaPlugin.get_tools] hands out. *)
Inductive Tool : Type :=
  | ExecuteCodeTool (self_id : N)
  | ExecuteCommandTool
  | UploadFileTool
  | ReadFileTool
  | StartLongRunningCommandTool (self_id : N).

Definition run_async (tool : Tool) (args : dict) : M dict :=
  match tool with
  | ExecuteCodeTool self_id => ExecuteCodeTool_run_async self_id args
  | ExecuteCommandTool => ExecuteCommandTool_run_async args
  | UploadFileTool => UploadFileTool_run_async args
  | ReadFileTool => ReadFileTool_run_async args
  | StartLongRunningCommandTool self_id => StartLongRunningCommandTool_run_async self_id args
  end.
End Tools.

Arguments World : clear implicits.
Arguments M : clear implicits.

(** ** The plugin: [DaytonaPlugin] *)

(** What the plugin acts on lies outside the repository: the Daytona client
    that owns the sandboxes, and the standard output of the process. [D] is
    the state of that outside world; [delete] and [print] each answer or
    raise. A sandbox handle is named by a number. *)
Class Daytona (D : Type) : Type := {
  delete : N → D → outcome unit * D
}.

Class Stdout (D : Type) : Type := {
  py_print : str → D → outcome unit * D
}.

Section Plugin.
Context `{PyRuntime} {D : Type} `{Daytona D} `{Stdout D}.

(** The fields of the plugin object, with the world behind the client, and
    two logs, oldest entry first: the [delete] requests sent to the provider
    and the lines handed to [print], each with the exception it raised if it
    raised one. A sandbox handle is a true object: [if self._sandbox] tests
    for [None]. *)
Record DaytonaPlugin : Type := {
  _daytona : D;
  _sandbox : option N;
  deletions : list (N * option exn);
  printed : list (str * option exn)
}.

(** [print(text)]. *)
Definition say (text : str) (self : DaytonaPlugin) : outcome unit * DaytonaPlugin :=
  let (o, d) := py_print text (_daytona self) in
  (o, {| _daytona := d; _sandbox := _sandbox self; deletions := deletions self;
         printed := printed self ++ [(text, raised o)] |}).

(** [self._daytona.delete(sb)]. *)
Definition request_delete (sb : N) (self : DaytonaPlugin) : outcome unit * DaytonaPlugin :=
  let (o, d) := delete sb (_daytona self) in
  (o, {| _daytona := d; _sandbox := _sandbox self;
         deletions := deletions self ++ [(sb, raised o)]; printed := printed self |}).

(** [self._sandbox = None]. *)
Definition clear_sandbox (self : DaytonaPlugin) : DaytonaPlugin :=
  {| _daytona := _daytona self; _sandbox := None; deletions := deletions self;
     printed := printed self |}.

(** The [except Exception as e] branch of [destroy_sandbox]: what its
    [print] raises is raised by [destroy_sandbox]. *)
Definition report_delete_error (e : exn) (self : DaytonaPlugin)
  : outcome unit * DaytonaPlugin :=
  say (lit "Error deleting Daytona sandbox: " ++ str_of_exn e) self.

(** [destroy_sandbox]: the two progress lines, the delete request and the
    assignment all stand inside the [try]; the reference is cleared after
    [delete] has answered and before the second line is printed. *)
Definition destroy_sandbox (self : DaytonaPlugin) : outcome unit * DaytonaPlugin :=
  match _sandbox self with
  | Some sb =>
      match say (lit "Deleting Daytona sandbox...") self with
      | (Return _, self) =>
          match request_delete sb self with
          | (Return _, self) =>
              match say (lit "Daytona sandbox deleted.") (clear_sandbox self) with
              | (Return _, self) => (Return tt, self)
              | (Raise e, self) => report_delete_error e self
              end
          | (Raise e, self) => report_delete_error e self
          end
      | (Raise e, self) => report_delete_error e self
      end
  | None => (Return tt, self)
  end.

(** The line [after_tool_callback] prints for a failed tool:
    [f"Tool {tool.name} failed: {result['error']}"]. *)
Definition failure_line (name : str) (result : dict) : str :=
  lit "Tool " ++ name ++ lit " failed: " ++ py_format (get result "error" VNone).

(** [after_tool_callback]: the hook the host calls with the result of a
    tool, any tool of the agent; [name] is [tool.name]. The line is printed
    before [destroy_sandbox] is called, outside any [try]. *)
Definition after_tool_callback (name : str) (result : dict) (self : DaytonaPlugin)
  : outcome PyVal * DaytonaPlugin :=
  if contains result "error" then
    match say (failure_line name result) self with
    | (Return _, self) =>
        match destroy_sandbox self with
        | (Return _, self) => (Return VNone, self)
        | (Raise e, self) => (Raise e, self)
        end
    | (Raise e, self) => (Raise e, self)
    end
  else (Return VNone, self).

(** [close]. *)
Definition close (self : DaytonaPlugin) : outcome unit * DaytonaPlugin :=
  destroy_sandbox self.
End Plugin.

Arguments DaytonaPlugin : clear implicits.

(** ** A sandbox to run examples against *)

Module Mock.

(** An interpreter for examples written in ASCII. *)
#[export] Instance runtime : PyRuntime := {|
  unicode_lower := fun s => s;
  py_repr := fun _ => lit "<object>";
  builtin_message := fun _ _ => lit "builtin error"
|}.

Definition refuse {A} (msg : string) : outcome A := Raise (Exn ProviderError (lit msg)).

(** A sandbox that keeps uploaded files in a map from path to content, runs
    every command with exit code 0 and opens every session asked for. *)
#[export] Instance fs_sandbox : Sandbox (gmap (list N) (list N)) := {|
  code_run := fun _ _ _ fs => (Return {| result := VStr []; exit_code := VInt 0 |}, fs);
  exec := fun _ _ _ _ fs => (Return {| result := VStr []; exit_code := VInt 0 |}, fs);
  upload_file := fun content path fs =>
    match content, path with
    | VBytes b, VStr p => (Return tt, <[p := b]> fs)
    | _, _ => (refuse "bad request", fs)
    end;
  download_file := fun path fs =>
    match path with
    | VStr p =>
        match fs !! p with
        | Some b => (Return (VBytes b), fs)
        | None => (refuse "file not found", fs)
        end
    | _ => (refuse "bad request", fs)
    end;
  delete_file := fun path fs =>
    match path with
    | VStr p => (Return tt, base.delete p fs)
    | _ => (refuse "bad request", fs)
    end;
  create_session := fun _ fs => (Return tt, fs);
  execute_session_command := fun _ _ _ fs =>
    (Return {| output := VNone; session_exit_code := VInt 0 |}, fs);
  new_session_execute_request := fun command run_async =>
    match command with
    | VStr _ => Return {| req_command := command; runAsync := run_async |}
    | _ => refuse "validation error"
    end
|}.

(** The world at the start of an example: no file, no call made yet. *)
Definition w0 : World (gmap (list N) (list N)) := {| sandbox := ∅; calls := [] |}.

(** An outside world for examples: a provider whose [delete] raises as
    long as its state is [false], and a standard output in UTF-8, which
    raises UnicodeEncodeError for a text with a lone surrogate. *)
#[export] Instance provider : Daytona bool := {|
  delete := fun _ (up : bool) => if up then (Return tt, up) else (refuse "provider unreachable", up)
|}.

#[export] Instance utf8_stdout : Stdout bool := {|
  py_print := fun text (up : bool) =>
    match utf8_encode text with
    | Some _ => (Return tt, up)
    | None =>
        (Raise (Exn UnicodeEncodeError
                  (lit "'utf-8' codec can't encode character: surrogates not allowed")), up)
    end
|}.

Definition plugin (up : bool) : DaytonaPlugin bool :=
  {| _daytona := up; _sandbox := Some 1; deletions := []; printed := [] |}.

(** The mapping an example call returned. *)
Definition returned (o : outcome dict) : dict :=
  match o with Return r => r | Raise _ => ∅ end.

End Mock.

Import Mock.

(** ** What the specification says, stated over the model *)

Section Statements.
Context `{PyRuntime} {S : Type} `{Sandbox S}.

(** The argument named [key] is a [str], or is not given. *)
Definition str_or_absent (args : dict) (key : string) : Prop :=
  match args !! lit key with
  | None | Some (VStr _) => True
  | Some _ => False
  end.

(** The arguments the tool declarations type as STRING hold strings. *)
Definition schema_typed (args : dict) : Prop :=
  str_or_absent args "code" ∧ str_or_absent args "language" ∧
  str_or_absent args "command" ∧ str_or_absent args "file_path" ∧
  str_or_absent args "content".

(** The call hands a result mapping back to its caller. *)
Definition returns (tool : Tool) (args : dict) (w : World S) : Prop :=
  ∃ r, fst (run_async tool args w) = Return r.

(** The sandbox calls made between two worlds. *)
Definition new_calls (w w' : World S) : list Event :=
  drop (length (calls w)) (calls w').

(** The failure shape of each tool: the message and the tool's sentinel. *)
Definition failure_result (tool : Tool) (msg : str) : dict :=
  match tool with
  | ExecuteCodeTool _ | ExecuteCommandTool | StartLongRunningCommandTool _ =>
      {[ lit "error" := VStr msg; lit "exit_code" := VInt (-1) ]}
  | UploadFileTool => {[ lit "error" := VStr msg; lit "success" := VBool false ]}
  | ReadFileTool => {[ lit "error" := VStr msg; lit "content" := VNone ]}
  end.

Definition failure_shape (tool : Tool) (r : dict) : Prop :=
  ∃ msg, r = failure_result tool msg.

(** The success shape of each tool. *)
Definition success_shape (tool : Tool) (r : dict) : Prop :=
  match tool with
  | ExecuteCodeTool _ | ExecuteCommandTool =>
      ∃ res code, r = {[ lit "result" := res; lit "exit_code" := code ]}
  | UploadFileTool => ∃ p, r = {[ lit "success" := VBool true; lit "path" := p ]}
  | ReadFileTool => ∃ c p, r = {[ lit "content" := VStr c; lit "path" := p ]}
  | StartLongRunningCommandTool _ =>
      ∃ sid out code,
        r = {[ lit "session_id" := VStr sid; lit "output" := out; lit "exit_code" := code ]}
  end.

(** The languages [ExecuteCodeTool] knows. *)
Definition supported (language : str) : Prop :=
  language = lit "python" ∨ language = lit "javascript" ∨ language = lit "typescript".

(** [s] spells [name] with some of its letters in upper case. *)
Definition casing (s : str) (name : string) : Prop :=
  Forall2 (fun c d => c = d ∨ (c + 32 = d ∧ 97 <= d ∧ d <= 122)) s (lit name).

(** The arguments each tool substitutes the empty string for. *)
Definition required (tool : Tool) : list string :=
  match tool with
  | ExecuteCodeTool _ => ["code"]
  | ExecuteCommandTool => ["command"]
  | UploadFileTool => ["file_path"; "content"]
  | ReadFileTool => ["file_path"]
  | StartLongRunningCommandTool _ => ["command"]
  end.

(** The sandbox filesystem stores what is uploaded and hands it back. *)
Definition fs_returns_stored : Prop :=
  ∀ (b : bytes) (p : str) (s : S),
    ∃ s' s'', upload_file (VBytes b) (VStr p) s = (Return tt, s')
              ∧ download_file (VStr p) s' = (Return (VBytes b), s'').

(** The path of the file a logged call uploaded. *)
Definition uploaded_path (ev : Event) : option PyVal :=
  match ev_call ev with UploadFile _ path => Some path | _ => None end.
(** The session id a call handed back, if it handed one back. *)
Definition session_id_returned (o : outcome dict) : option PyVal :=
  match o with
  | Return r => r !! lit "session_id"
  | Raise _ => None
  end.

(** The [error] entry of a returned mapping. *)
Definition error_returned (o : outcome dict) : option PyVal :=
  match o with
  | Return r => r !! lit "error"
  | Raise _ => None
  end.

(** The extension [ExecuteCodeTool] gives the script of a language. *)
Definition script_ext (language : str) : string :=
  if bool_decide (language = lit "javascript") then "js" else "ts".

(** What [ExecuteCodeTool] answers to a language it does not know. *)
Definition unsupported_result (language : str) : dict :=
  {[ lit "error" := VStr (lit "Unsupported language: " ++ language);
     lit "exit_code" := VInt (-1) ]}.

(** The arguments under which a tool gets as far as its first sandbox call:
    the typed arguments hold strings, the language of [ExecuteCodeTool] is
    one it knows, and the content of [UploadFileTool] can be encoded. *)
Definition reaches_sandbox (tool : Tool) (args : dict) : Prop :=
  schema_typed args ∧
  match tool with
  | ExecuteCodeTool _ =>
      ∃ lang, get args "language" (VStr (lit "python")) = VStr lang
              ∧ supported (str_lower lang)
  | UploadFileTool => ∀ c, args !! lit "content" = Some (VStr c) → encodable c
  | _ => True
  end.
End Statements.

Section PluginStatements.
Context `{PyRuntime} {D : Type} `{Daytona D} `{Stdout D}.


(** The lines and the delete requests of a piece of the run, from the plugin
    [self] to the plugin [self'] it became. *)
Definition new_prints (self self' : DaytonaPlugin D) : list (str * option exn) :=
  drop (length (printed self)) (printed self').

Definition new_deletions (self self' : DaytonaPlugin D) : list (N * option exn) :=
  drop (length (deletions self)) (deletions self').

(** An exception that comes out of a call is the one its last [print]
    raised. *)
Definition raised_by_last_print {A} (r : outcome A * DaytonaPlugin D) : Prop :=
  ∀ e, fst r = Raise e → ∃ text, last (printed (snd r)) = Some (text, Some e).
End PluginStatements.

(** ** Calls by kind, and what the calls of the execute-code tool carry *)

Inductive CallKind : Type :=
  | KCodeRun | KExec | KUploadFile | KDownloadFile | KDeleteFile
  | KCreateSession | KExecuteSessionCommand.

Definition call_kind (c : Call) : CallKind :=
  match c with
  | CodeRun _ _ _ => KCodeRun
  | Exec _ _ _ _ => KExec
  | UploadFile _ _ => KUploadFile
  | DownloadFile _ => KDownloadFile
  | DeleteFile _ => KDeleteFile
  | CreateSession _ => KCreateSession
  | ExecuteSessionCommand _ _ _ => KExecuteSessionCommand
  end.

Definition kinds (t : list Event) : list CallKind := (fun ev => call_kind (ev_call ev)) <$> t.

(** The sandbox calls of a run in which nothing goes wrong. *)
Definition full_runs (tool : Tool) : list (list CallKind) :=
  match tool with
  | ExecuteCodeTool _ => [[KCodeRun]; [KUploadFile; KExec; KDeleteFile]]
  | ExecuteCommandTool => [[KExec]]
  | UploadFileTool => [[KUploadFile]]
  | ReadFileTool => [[KDownloadFile]]
  | StartLongRunningCommandTool _ => [[KCreateSession; KExecuteSessionCommand]]
  end.

(** The calls of the branch the execute-code tool takes for a language. *)
Definition branch (language : str) : list CallKind :=
  if bool_decide (language = lit "python") then [KCodeRun]
  else [KUploadFile; KExec; KDeleteFile].

Section ScriptCalls.
Context `{PyRuntime}.

(** The program a script of a language is run with. *)
Definition interpreter (language : str) : str :=
  if bool_decide (language = lit "javascript") then lit "node " else lit ts_node_command.

(** What a sandbox call of the execute-code tool carries, for the
    lower-case [language] of the call. *)
Definition script_call (self_id : N) (args : dict) (language : str) (c : Call) : Prop :=
  let env := get_opt args "env" in
  let argv := get_opt args "argv" in
  let path := script_path self_id (script_ext language) in
  match c with
  | CodeRun code params timeout =>
      language = lit "python"
      ∧ code = get args "code" (VStr []) ∧ timeout = get_opt args "timeout"
      ∧ params = (if truthy env || truthy argv
                  then Some {| params_env := env; params_argv := argv |} else None)
  | UploadFile _ p => language ≠ lit "python" ∧ p = VStr path
  | Exec cmd cwd env' timeout =>
      cwd = VNone ∧ env' = env ∧ timeout = get_opt args "timeout"
      ∧ ∃ rest, cmd = VStr (interpreter language ++ path ++ rest)
                ∧ if truthy argv
                  then ∃ joined, py_join (lit " ") argv = Return joined
                                 ∧ rest = lit " " ++ joined
                  else rest = []
  | DeleteFile p => p = VStr path
  | _ => False
  end.

(** The run with the sandbox calls [t] took the branch of [language]: the
    calls are a beginning of the branch, carry what the branch hands on, and
    the first is made whenever the code has a length and, for a script, can
    be encoded. *)
Definition selects_branch (self_id : N) (args : dict) (language : str) (t : list Event)
  : Prop :=
  kinds t `prefix_of` branch language
  ∧ Forall (fun ev => script_call self_id args language (ev_call ev)) t
  ∧ ∀ n, py_len (get args "code" (VStr [])) = Return n →
         (language = lit "python"
          ∨ ∃ bs, py_encode (get args "code" (VStr [])) = Return bs) →
         t ≠ [].
End ScriptCalls.

(** * Proofs *)

(** ** UTF-8 *)

(** [lia] over [N] does not know the range of [/] and [mod]; the facts it
    needs are stated first and the quotients are then hidden from it. *)
Ltac hide_divmod :=
  repeat match goal with
         | |- context [N.modulo ?a ?b] =>
             let x := fresh "r" in set (x := N.modulo a b) in *; clearbody x
         | |- context [N.div ?a ?b] =>
             let x := fresh "q" in set (x := N.div a b) in *; clearbody x
         | H : context [N.modulo ?a ?b] |- _ =>
             let x := fresh "r" in set (x := N.modulo a b) in *; clearbody x
         | H : context [N.div ?a ?b] |- _ =>
             let x := fresh "q" in set (x := N.div a b) in *; clearbody x
         end.
Ltac dlia := hide_divmod; lia.

Lemma utf8_decode_encode_cp c r :
  scalar_value c →
  ∃ b, utf8_encode_cp c = Some b ∧ utf8_decode (b ++ r) = cons c <$> utf8_decode r.
Proof.
  intros [Hlt Hs]. unfold utf8_encode_cp.
  destruct (N.ltb_spec c 0x80) as [H1|H1].
  { eexists; split; [done|]. simpl.
    destruct (N.ltb_spec c 0x80); [done|lia]. }
  destruct (N.ltb_spec c 0x800) as [H2|H2].
  { eexists; split; [done|]. cbn [app utf8_decode].
    assert (c / 64 < 32) by (apply N.Div0.div_lt_upper_bound; lia).
    assert (2 <= c / 64) by (apply N.div_le_lower_bound; lia).
    assert (c mod 64 < 64) by (apply N.mod_lt; lia).
    pose proof (N.div_mod c 64 ltac:(lia)).
    destruct (N.ltb_spec (0xC0 + c / 64) 0x80); [dlia|].
    destruct (N.ltb_spec (0xC0 + c / 64) 0xC2); [dlia|].
    destruct (N.ltb_spec (0xC0 + c / 64) 0xE0); [|dlia].
    unfold is_cont.
    destruct (N.leb_spec 0x80 (0x80 + c mod 64)); [|dlia].
    destruct (N.ltb_spec (0x80 + c mod 64) 0xC0); [|dlia].
    simpl andb. cbv iota. do 2 f_equal. dlia. }
  destruct (N.ltb_spec c 0x10000) as [H3|H3].
  { rewrite Hs. eexists; split; [done|]. cbn [app utf8_decode].
    assert (c / 4096 < 16) by (apply N.Div0.div_lt_upper_bound; lia).
    assert (c mod 64 < 64) by (apply N.mod_lt; lia).
    assert ((c / 64) mod 64 < 64) by (apply N.mod_lt; lia).
    pose proof (N.div_mod c 64 ltac:(lia)).
    pose proof (N.div_mod (c / 64) 64 ltac:(lia)).
    assert (c / 64 / 64 = c / 4096) as Hd by (rewrite N.Div0.div_div; done).
    rewrite Hd in *.
    destruct (N.ltb_spec (0xE0 + c / 4096) 0x80); [dlia|].
    destruct (N.ltb_spec (0xE0 + c / 4096) 0xC2); [dlia|].
    destruct (N.ltb_spec (0xE0 + c / 4096) 0xE0); [dlia|].
    destruct (N.ltb_spec (0xE0 + c / 4096) 0xF0); [|dlia].
    cbv zeta.
    replace ((0xE0 + c / 4096 - 0xE0) * 4096 + (0x80 + (c / 64) mod 64 - 0x80) * 64
             + (0x80 + c mod 64 - 0x80)) with c by dlia.
    rewrite Hs. unfold is_cont.
    destruct (N.leb_spec 0x80 (0x80 + (c / 64) mod 64)); [|dlia].
    destruct (N.ltb_spec (0x80 + (c / 64) mod 64) 0xC0); [|dlia].
    destruct (N.leb_spec 0x80 (0x80 + c mod 64)); [|dlia].
    destruct (N.ltb_spec (0x80 + c mod 64) 0xC0); [|dlia].
    destruct (N.leb_spec 0x800 c); [|dlia]. done. }
  destruct (N.ltb_spec c 0x110000) as [H4|H4]; [|dlia].
  eexists; split; [done|]. cbn [app utf8_decode].
  assert (c / 262144 < 5) by (apply N.Div0.div_lt_upper_bound; lia).
  assert (c mod 64 < 64) by (apply N.mod_lt; lia).
  assert ((c / 64) mod 64 < 64) by (apply N.mod_lt; lia).
  assert ((c / 4096) mod 64 < 64) by (apply N.mod_lt; lia).
  pose proof (N.div_mod c 64 ltac:(lia)).
  pose proof (N.div_mod (c / 64) 64 ltac:(lia)).
  pose proof (N.div_mod (c / 4096) 64 ltac:(lia)).
  assert (c / 64 / 64 = c / 4096) as Hd by (rewrite N.Div0.div_div; done).
  assert (c / 4096 / 64 = c / 262144) as Hd' by (rewrite N.Div0.div_div; done).
  rewrite Hd in *. rewrite Hd' in *.
  destruct (N.ltb_spec (0xF0 + c / 262144) 0x80); [dlia|].
  destruct (N.ltb_spec (0xF0 + c / 262144) 0xC2); [dlia|].
  destruct (N.ltb_spec (0xF0 + c / 262144) 0xE0); [dlia|].
  destruct (N.ltb_spec (0xF0 + c / 262144) 0xF0); [dlia|].
  destruct (N.ltb_spec (0xF0 + c / 262144) 0xF5); [|dlia].
  cbv zeta.
  replace ((0xF0 + c / 262144 - 0xF0) * 262144 + (0x80 + (c / 4096) mod 64 - 0x80) * 4096
           + (0x80 + (c / 64) mod 64 - 0x80) * 64 + (0x80 + c mod 64 - 0x80))
    with c by dlia.
  unfold is_cont.
  destruct (N.leb_spec 0x80 (0x80 + (c / 4096) mod 64)); [|dlia].
  destruct (N.ltb_spec (0x80 + (c / 4096) mod 64) 0xC0); [|dlia].
  destruct (N.leb_spec 0x80 (0x80 + (c / 64) mod 64)); [|dlia].
  destruct (N.ltb_spec (0x80 + (c / 64) mod 64) 0xC0); [|dlia].
  destruct (N.leb_spec 0x80 (0x80 + c mod 64)); [|dlia].
  destruct (N.ltb_spec (0x80 + c mod 64) 0xC0); [|dlia].
  destruct (N.leb_spec 0x10000 c); [|dlia].
  destruct (N.ltb_spec c 0x110000); [|dlia]. done.
Qed.

(** Decoding undoes encoding on every text that can be encoded. *)
Lemma utf8_roundtrip s :
  encodable s → ∃ bs, utf8_encode s = Some bs ∧ utf8_decode bs = Some s.
Proof.
  induction 1 as [|c s Hc _ (bs & Hbs & Hdec)]; [by exists []|].
  destruct (utf8_decode_encode_cp c bs Hc) as (b & Hb & Hd).
  exists (b ++ bs). simpl. rewrite Hb, Hbs. split; [done|].
  by rewrite Hd, Hdec.
Qed.

(** Encoding fails exactly when some element is not a scalar value. *)
Lemma utf8_encode_cp_Some c b : utf8_encode_cp c = Some b → scalar_value c.
Proof.
  unfold utf8_encode_cp, scalar_value, is_surrogate. intros H.
  repeat match type of H with
         | context [N.ltb ?a ?b] => destruct (N.ltb_spec a b)
         | context [N.leb ?a ?b] => destruct (N.leb_spec a b)
         end; simpl in H; try discriminate; split; try lia;
  repeat match goal with
         | |- context [N.leb ?a ?b] => destruct (N.leb_spec a b)
         end; simpl; try done; lia.
Qed.

Lemma utf8_encode_Some s bs : utf8_encode s = Some bs → encodable s.
Proof.
  revert bs. induction s as [|c s IH]; intros bs H; [constructor|].
  simpl in H. destruct (utf8_encode_cp c) eqn:Hc; [|done].
  destruct (utf8_encode s) eqn:Hs; [|done].
  constructor; [by eapply utf8_encode_cp_Some|by eapply IH].
Qed.


(** ** The sandbox lifecycle *)

Section PluginFacts.
Context `{PyRuntime} {D : Type} `{Daytona D} `{Stdout D}.

Lemma destroy_sandbox_absent (self : DaytonaPlugin D) :
  _sandbox self = None → destroy_sandbox self = (Return tt, self).
Proof. unfold destroy_sandbox. by intros ->. Qed.

(** What a [unit] call answered, read off its log entry. *)
Definition outcome_of (o : option exn) : outcome unit :=
  match o with None => Return tt | Some e => Raise e end.

(** The four ways through [destroy_sandbox] when a sandbox is held: the
    first line cannot be printed; the delete raises; the second line cannot
    be printed; or all goes well. In the first three the [except] branch
    prints its line, and what that [print] does is the outcome. *)
Lemma destroy_sandbox_cases (sb : N) (self : DaytonaPlugin D) :
  _sandbox self = Some sb →
  ∃ prints dels,
    printed (snd (destroy_sandbox self)) = printed self ++ prints
    ∧ deletions (snd (destroy_sandbox self)) = deletions self ++ dels
    ∧ ((∃ e o, prints = [(lit "Deleting Daytona sandbox...", Some e);
                         (lit "Error deleting Daytona sandbox: " ++ str_of_exn e, o)]
               ∧ dels = [] ∧ _sandbox (snd (destroy_sandbox self)) = Some sb
               ∧ fst (destroy_sandbox self) = outcome_of o)
       ∨ (∃ e o, prints = [(lit "Deleting Daytona sandbox...", None);
                           (lit "Error deleting Daytona sandbox: " ++ str_of_exn e, o)]
                 ∧ dels = [(sb, Some e)] ∧ _sandbox (snd (destroy_sandbox self)) = Some sb
                 ∧ fst (destroy_sandbox self) = outcome_of o)
       ∨ (∃ e o, prints = [(lit "Deleting Daytona sandbox...", None);
                           (lit "Daytona sandbox deleted.", Some e);
                           (lit "Error deleting Daytona sandbox: " ++ str_of_exn e, o)]
                 ∧ dels = [(sb, None)] ∧ _sandbox (snd (destroy_sandbox self)) = None
                 ∧ fst (destroy_sandbox self) = outcome_of o)
       ∨ (prints = [(lit "Deleting Daytona sandbox...", None);
                    (lit "Daytona sandbox deleted.", None)]
          ∧ dels = [(sb, None)] ∧ _sandbox (snd (destroy_sandbox self)) = None
          ∧ fst (destroy_sandbox self) = Return tt)).
Proof.
  intros Hsb. unfold destroy_sandbox, report_delete_error, say, request_delete, clear_sandbox.
  rewrite Hsb. cbn [_daytona _sandbox deletions printed].
  repeat match goal with
         | |- context [py_print ?t ?d] =>
             destruct (py_print t d) as [[[]|?] ?];
             cbn [fst snd _daytona _sandbox deletions printed raised]
         | |- context [delete ?x ?d] =>
             destruct (delete x d) as [[[]|?] ?];
             cbn [fst snd _daytona _sandbox deletions printed raised]
         end.
  all: rewrite <- ?app_assoc; cbn [app].
  all: eexists _, _; (split; [reflexivity|]).
  all: first [ split; [reflexivity|] | split; [symmetry; apply app_nil_r|] ].
  - do 3 right. done.
  - do 2 right. left. by eexists _, None.
  - do 2 right. left. by eexists _, (Some _).
  - right. left. by eexists _, None.
  - right. left. by eexists _, (Some _).
  - left. by eexists _, None.
  - left. by eexists _, (Some _).
Qed.

Lemma outcome_of_raised (o : outcome unit) : outcome_of (raised o) = o.
Proof. by destruct o as [[]|e]. Qed.

(** What [destroy_sandbox] raises is what the [print] of its [except]
    branch raised, and that line is the last one printed. *)
Lemma destroy_sandbox_raise_is_report (self : DaytonaPlugin D) (e : exn) :
  fst (destroy_sandbox self) = Raise e →
  ∃ e0, last (printed (snd (destroy_sandbox self)))
        = Some (lit "Error deleting Daytona sandbox: " ++ str_of_exn e0, Some e).
Proof.
  intros Hraise.
  destruct (_sandbox self) as [sb|] eqn:Hsb.
  - destruct (destroy_sandbox_cases sb self Hsb) as (prints & dels & -> & _ & Hcases).
    rewrite Hraise in Hcases.
    destruct Hcases as [(e' & o & -> & _ & _ & Ho)|[(e' & o & -> & _ & _ & Ho)
                       |[(e' & o & -> & _ & _ & Ho)|(_ & _ & _ & Ho)]]];
      try discriminate Ho;
      destruct o as [e''|]; cbn [outcome_of] in Ho; try discriminate Ho;
      injection Ho as ->; exists e';
      repeat match goal with
             | |- context [?l ++ [?a; ?b]] => change (l ++ [a; b]) with (l ++ [a] ++ [b])
             | |- context [?l ++ [?a; ?b; ?c]] =>
                 change (l ++ [a; b; c]) with (l ++ [a; b] ++ [c])
             end;
      rewrite ?(assoc_L (++)); apply last_snoc.
  - rewrite (destroy_sandbox_absent self Hsb) in Hraise. discriminate Hraise.
Qed.

Lemma destroy_sandbox_raised_by_last_print (self : DaytonaPlugin D) :
  raised_by_last_print (destroy_sandbox self).
Proof.
  intros e Hraise. destruct (destroy_sandbox_raise_is_report self e Hraise) as [e0 Hlast].
  by eexists.
Qed.


(** What a failed delete leaves behind: the reference stays, and the
    request is on the log. *)
Lemma destroy_sandbox_delete_raised (self : DaytonaPlugin D) (sb : N) (e : exn) :
  _sandbox self = Some sb →
  new_deletions self (snd (destroy_sandbox self)) = [(sb, Some e)] →
  _sandbox (snd (destroy_sandbox self)) = Some sb.
Proof.
  intros Hsb Hnew.
  destruct (destroy_sandbox_cases sb self Hsb) as (prints & dels & _ & Hdels & Hcases).
  unfold new_deletions in Hnew. rewrite Hdels, drop_app_length in Hnew. subst dels.
  destruct Hcases as [(e' & o & _ & Hd & Hs & _)|[(e' & o & _ & Hd & Hs & _)
                     |[(e' & o & _ & Hd & _)|(_ & Hd & _)]]];
    try discriminate Hd; exact Hs.
Qed.

Lemma destroy_sandbox_extends (self : DaytonaPlugin D) :
  ∃ prints dels,
    printed (snd (destroy_sandbox self)) = printed self ++ prints
    ∧ deletions (snd (destroy_sandbox self)) = deletions self ++ dels
    ∧ (_sandbox self = None → dels = []).
Proof.
  destruct (_sandbox self) as [sb|] eqn:Hsb.
  - destruct (destroy_sandbox_cases sb self Hsb) as (prints & dels & Hp & Hd & _).
    by exists prints, dels.
  - rewrite (destroy_sandbox_absent self Hsb). exists [], []. by rewrite !app_nil_r.
Qed.

Lemma say_keeps (text : str) (self : DaytonaPlugin D) :
  _sandbox (snd (say text self)) = _sandbox self
  ∧ deletions (snd (say text self)) = deletions self
  ∧ printed (snd (say text self)) = printed self ++ [(text, raised (fst (say text self)))].
Proof. unfold say. by destruct (py_print text (_daytona self)) as [o d]. Qed.

Lemma after_tool_callback_error (name : str) (result : dict) (self : DaytonaPlugin D) :
  contains result "error" = true →
  after_tool_callback name result self
  = match say (failure_line name result) self with
    | (Return _, self1) =>
        match destroy_sandbox self1 with
        | (Return _, self2) => (Return VNone, self2)
        | (Raise e, self2) => (Raise e, self2)
        end
    | (Raise e, self1) => (Raise e, self1)
    end.
Proof. unfold after_tool_callback. by intros ->. Qed.

(** After [destroy_sandbox] no sandbox is held, unless a [print] or the
    delete request raised. *)
Lemma destroy_sandbox_clears_or_raised (self : DaytonaPlugin D) :
  _sandbox (snd (destroy_sandbox self)) = None
  ∨ Exists (fun p => is_Some (snd p)) (new_prints self (snd (destroy_sandbox self)))
  ∨ Exists (fun d => is_Some (snd d)) (new_deletions self (snd (destroy_sandbox self))).
Proof.
  destruct (_sandbox self) as [sb|] eqn:Hsb;
    [|left; by rewrite (destroy_sandbox_absent self Hsb)].
  destruct (destroy_sandbox_cases sb self Hsb) as (prints & dels & Hp & Hd & Hcases).
  unfold new_prints, new_deletions. rewrite Hp, Hd, !drop_app_length.
  destruct Hcases as [(e & o & -> & _)|[(e & o & _ & -> & _)
                     |[(e & o & _ & _ & Hs & _)|(_ & _ & Hs & _)]]].
  - right. left. apply Exists_cons_hd. by eexists.
  - right. right. apply Exists_cons_hd. by eexists.
  - by left.
  - by left.
Qed.

(** C5, as amended: when the result has no key [error], the hook returns
    [None] and leaves the plugin as it was. When it has the key, the hook
    first prints the line [Tool <name> failed: <error>]; if that [print]
    raises, the hook raises the same exception and nothing is destroyed; if
    it returns, [destroy_sandbox] runs, the plugin is left as
    [destroy_sandbox] leaves it, and the hook returns [None] unless
    [destroy_sandbox] raised. A delete request goes out only when the key is
    there, a sandbox is held and the line was printed. *)
Theorem after_tool_callback_destroys_on_error
    (name : str) (result : dict) (self : DaytonaPlugin D) :
  (contains result "error" = false →
   after_tool_callback name result self = (Return VNone, self))
  ∧ (contains result "error" = true →
     match say (failure_line name result) self with
     | (Return _, self1) =>
         snd (after_tool_callback name result self) = snd (destroy_sandbox self1)
         ∧ fst (after_tool_callback name result self)
           = match fst (destroy_sandbox self1) with
             | Return _ => Return VNone
             | Raise e => Raise e
             end
     | (Raise e, self1) =>
         after_tool_callback name result self = (Raise e, self1)
         ∧ _sandbox self1 = _sandbox self ∧ deletions self1 = deletions self
     end)
  ∧ (new_deletions self (snd (after_tool_callback name result self)) ≠ [] →
     contains result "error" = true ∧ is_Some (_sandbox self)
     ∧ (failure_line name result, None)
       ∈ new_prints self (snd (after_tool_callback name result self))).
Proof.
  unfold after_tool_callback.
  destruct (contains result "error").
  - split; [intros Hx; discriminate Hx|].
    destruct (say_keeps (failure_line name result) self) as (Hs & Hd & Hp).
    destruct (say (failure_line name result) self) as [[[]|e] self1] eqn:Hsay;
      cbn [fst snd raised] in Hs, Hd, Hp.
    + destruct (destroy_sandbox_extends self1) as (prints & dels & Hp1 & Hd1 & Hnone).
      destruct (destroy_sandbox self1) as [o self2]; cbn [fst snd] in *.
      assert (snd (match o with
                   | Return _ => (Return VNone, self2)
                   | Raise e => (Raise e, self2)
                   end) = self2) as Hsnd by (by destruct o).
      split; [intros _; split; [exact Hsnd|by destruct o]|].
      rewrite Hsnd. unfold new_deletions, new_prints.
      rewrite Hd1, Hd, drop_app_length, Hp1, Hp, <- app_assoc, drop_app_length.
      intros Hnew. split; [reflexivity|]. split.
      * destruct (_sandbox self) as [sb|] eqn:Hsb; [by eexists|].
        exfalso. apply Hnew. apply Hnone. by rewrite Hs.
      * apply elem_of_cons. by left.
    + split; [done|]. cbn [snd]. intros Hnew. exfalso. apply Hnew.
      unfold new_deletions. rewrite Hd. apply drop_all.
  - split; [done|]. split; [intros Hx; discriminate Hx|].
    cbn [snd]. intros Hnew. exfalso. apply Hnew. unfold new_deletions. apply drop_all.
Qed.
End PluginFacts.



(** C5, as the specification words it, fails: the line about the failed
    tool is printed before [destroy_sandbox] is called, and a standard
    output in UTF-8 cannot print the lone surrogate that the execute-code
    tool reports back for the language it was given. The hook then raises,
    and the sandbox is not destroyed. *)
Lemma after_tool_callback_raises_on_unprintable_error :
  ¬ (∀ (name : str) (result : dict) (self : DaytonaPlugin bool),
       fst (after_tool_callback name result self) = Return VNone
       ∧ (contains result "error" = true →
          _sandbox (snd (after_tool_callback name result self))
          = _sandbox (snd (destroy_sandbox self)))).
Proof.
  intros Hall.
  destruct (Hall (lit "execute_code_in_daytona")
              (returned (fst (run_async (ExecuteCodeTool 7)
                                {[ lit "language" := VStr [55296] ]} w0)))
              (plugin true)) as [_ Hdestroyed].
  assert (Some 1 = None :> option N) as Hx; [|discriminate Hx].
  etransitivity; [|etransitivity; [apply Hdestroyed|]];
    vm_compute; reflexivity.
Qed.

(** ** A program logic for the tools *)

Section ProgramLogic.
Context {S : Type}.

(** [wp m Q w]: run from [w], the program [m] ends in an outcome and a world
    that satisfy [Q]. *)
Definition wp {A} (m : M S A) (Q : outcome A → World S → Prop) (w : World S) : Prop :=
  Q (fst (m w)) (snd (m w)).

Lemma wp_ret {A} (a : A) Q w : Q (Return a) w → wp (ret a) Q w.
Proof. done. Qed.

Lemma wp_eval {A} (o : outcome A) Q w : Q o w → wp (eval o) Q w.
Proof. done. Qed.

Lemma wp_bind {A B} (m : M S A) (k : A → M S B) Q w :
  wp m (fun o w' => match o with
                    | Return a => wp (k a) Q w'
                    | Raise e => Q (Raise e) w'
                    end) w →
  wp (bind m k) Q w.
Proof. unfold wp, bind. cbv beta. by destruct (m w) as [[a|e] w']. Qed.

Lemma wp_try_except {A} (body : M S A) (handler : exn → M S A) Q w :
  wp body (fun o w' => match o with
                       | Return a => Q (Return a) w'
                       | Raise e => wp (handler e) Q w'
                       end) w →
  wp (try_except body handler) Q w.
Proof. unfold wp, try_except. cbv beta. by destruct (body w) as [[a|e] w']. Qed.

Lemma wp_call {A} (c : Call) (op : S → outcome A * S) Q w :
  (∀ o s', op (sandbox w) = (o, s') →
     Q o {| sandbox := s'; calls := calls w ++ [{| ev_call := c; ev_raised := raised o |}] |}) →
  wp (call c op) Q w.
Proof. unfold wp, call. cbv beta. intros HQ. destruct (op (sandbox w)) as [o s'] eqn:Hop. by apply HQ. Qed.

Lemma wp_run {A} (m : M S A) Q w o w' : wp m Q w → m w = (o, w') → Q o w'.
Proof. unfold wp. intros HQ Hm. by rewrite Hm in HQ. Qed.

Lemma wp_intro {A} (m : M S A) (Q : outcome A → World S → Prop) w :
  (∀ o w', m w = (o, w') → Q o w') → wp m Q w.
Proof. unfold wp. intros HQ. apply HQ. by destruct (m w). Qed.
End ProgramLogic.

(** One step of a proof by [wp]: the rule of the program's head. *)
Ltac wp_step :=
  lazymatch goal with
  | |- wp (bind _ _) _ _ => apply wp_bind
  | |- wp (try_except _ _) _ _ => apply wp_try_except
  | |- wp (ret _) _ _ => apply wp_ret
  | |- wp (eval ?o) _ _ =>
      apply wp_eval;
      lazymatch o with
      | Return _ => cbv beta iota
      | Raise _ => cbv beta iota
      | _ => destruct o eqn:?
      end
  | |- wp (call _ _) _ _ => apply wp_call; intros [?|?] ? ?
  | |- wp (if ?b then _ else _) _ _ => destruct b eqn:?
  | |- wp (log_command _) _ _ => unfold log_command
  end.

(** ** The tools *)

Section ToolFacts.
Context `{PyRuntime} {S : Type} `{Sandbox S}.

Lemma wp_returns {A} (m : M S A) (P : A → World S → Prop) w :
  wp m (fun o w' => ∃ r, o = Return r ∧ P r w') w →
  ∃ r w', m w = (Return r, w') ∧ P r w'.
Proof.
  unfold wp. intros (r & Hr & HP). exists r, (snd (m w)). split; [|done].
  rewrite <- Hr. apply surjective_pairing.
Qed.

Lemma str_or_absent_get (args : dict) (key : string) (d : str) :
  str_or_absent args key → ∃ s, get args key (VStr d) = VStr s.
Proof.
  unfold str_or_absent, get. destruct (args !! lit key) as [[]|]; try done; eauto.
Qed.

Lemma py_decode_str v a : py_decode v = Return a → ∃ s, a = VStr s.
Proof. unfold py_decode. repeat case_match; intros; simplify_eq; eauto. Qed.

Lemma contains_insert_error (v : PyVal) (m : dict) :
  contains (<[lit "error" := v]> m) "error" = true.
Proof. unfold contains. by rewrite lookup_insert_eq. Qed.

Lemma success_shape_no_error (tool : Tool) (r : dict) :
  success_shape tool r → success_shape tool r ∧ contains r "error" = false.
Proof.
  intros Hs. split; [done|].
  destruct tool; cbn [success_shape] in Hs;
    repeat match goal with Hx : ∃ _, _ |- _ => destruct Hx as [? Hx] end;
    subst r; reflexivity.
Qed.

Lemma failure_shape_error (tool : Tool) (msg : str) :
  failure_shape tool (failure_result tool msg)
  ∧ contains (failure_result tool msg) "error" = true.
Proof. split; [by eexists|]. destruct tool; apply contains_insert_error. Qed.

(** The two shapes, as a postcondition. *)
Definition shape_post (tool : Tool) : outcome dict → World S → Prop :=
  fun o _ => match o with
             | Return r =>
                 (success_shape tool r ∧ contains r "error" = false)
                 ∨ (failure_shape tool r ∧ contains r "error" = true)
             | Raise _ => True
             end.

(** C7: every result mapping a tool returns has exactly one of two shapes:
    the tool's success shape, without the key [error], or the failure shape,
    which is the key [error] with a message and the tool's sentinel
    ([exit_code] -1, [success] false, [content] None) and nothing else. *)
Theorem run_async_result_shape (tool : Tool) (args : dict) (w w' : World S) (r : dict) :
  run_async tool args w = (Return r, w') →
  (success_shape tool r ∧ contains r "error" = false)
  ∨ (failure_shape tool r ∧ contains r "error" = true).
Proof.
  intros Hrun.
  apply (wp_run (run_async tool args) (shape_post tool) w (Return r) w'); [|exact Hrun].
  clear Hrun r w'.
  destruct tool; unfold run_async, ExecuteCodeTool_run_async, ExecuteCommandTool_run_async,
      UploadFileTool_run_async, ReadFileTool_run_async,
      StartLongRunningCommandTool_run_async; cbv zeta.
  all: repeat wp_step.
  all: lazymatch goal with
       | |- shape_post _ (Raise _) _ => exact I
       | |- shape_post ?t (Return ?r) _ =>
           lazymatch r with
           | context [lit "error"] => right; eapply (failure_shape_error t)
           | _ => left; apply success_shape_no_error
           end
       end.
  all: try match goal with Hd : py_decode _ = Return _ |- _ =>
              destruct (py_decode_str _ _ Hd) as [? ->] end.
  all: cbn [success_shape]; unfold exec_result; repeat eexists.
Qed.

(** Every call returns, and a sandbox call that raised decides the result. *)
Definition caught_post (tool : Tool) (w : World S) : outcome dict → World S → Prop :=
  fun o w' => ∃ r, o = Return r ∧
    ∀ ev e, ev ∈ new_calls w w' → ev_raised ev = Some e →
            r = failure_result tool (str_of_exn e).

Ltac solve_caught :=
  lazymatch goal with
  | Hx : _ = Raise _ |- caught_post _ _ (Raise _) _ => discriminate Hx
  | |- caught_post _ _ (Return ?r) _ =>
      exists r; split; [reflexivity|];
      unfold new_calls; cbn [calls]; rewrite <- ?app_assoc, ?drop_app_length, ?drop_all;
      let ev := fresh "ev" in let ex := fresh "ex" in
      let Hin := fresh "Hin" in let Hr := fresh "Hr" in
      intros ev ex Hin Hr;
      repeat (apply elem_of_cons in Hin as [->|Hin]);
      try (by apply elem_of_nil in Hin);
      cbn in Hr; first [discriminate Hr | injection Hr as <-; reflexivity]
  end.

(** C1, as amended: when the arguments the declarations type as strings
    ([code], [language], [command], [file_path], [content]) hold strings
    wherever they are given, [run_async] of every tool returns a result
    mapping, whatever the sandbox does; and if a sandbox call of the run
    raised [e], the result is the tool's failure shape with [str(e)] under
    [error]. *)
Theorem run_async_returns_when_typed (tool : Tool) (args : dict) (w : World S) :
  schema_typed args →
  ∃ r w', run_async tool args w = (Return r, w')
          ∧ ∀ ev e, ev ∈ new_calls w w' → ev_raised ev = Some e →
                    r = failure_result tool (str_of_exn e).
Proof.
  intros (Hcode & Hlang & Hcmd & Hpath & Hcontent).
  destruct (str_or_absent_get args "code" [] Hcode) as [code Ecode].
  destruct (str_or_absent_get args "language" (lit "python") Hlang) as [lang Elang].
  destruct (str_or_absent_get args "command" [] Hcmd) as [cmd Ecmd].
  destruct (str_or_absent_get args "content" [] Hcontent) as [content Econtent].
  apply (wp_returns (run_async tool args)
           (fun r w' => ∀ ev e, ev ∈ new_calls w w' → ev_raised ev = Some e →
                                r = failure_result tool (str_of_exn e))).
  change (wp (run_async tool args) (caught_post tool w) w).
  destruct tool; unfold run_async, ExecuteCodeTool_run_async, ExecuteCommandTool_run_async,
      UploadFileTool_run_async, ReadFileTool_run_async,
      StartLongRunningCommandTool_run_async; cbv zeta;
    rewrite ?Ecode, ?Elang, ?Ecmd, ?Econtent.
  all: repeat wp_step.
  all: solve_caught.
Qed.
End ToolFacts.

(** C1, as the specification words it, fails: the arguments are read and
    logged before the [try], so a [language] that is no string makes
    [.lower()] raise AttributeError, and a [command] that is [None] makes
    the slice of the debug line raise TypeError. *)
Lemma run_async_raises_on_untyped_argument :
  ¬ (∀ (tool : Tool) (args : dict), returns tool args w0).
Proof.
  intros Hall.
  destruct (Hall (ExecuteCodeTool 7) {[ lit "language" := VNone ]}) as [r Hr].
  vm_compute in Hr. discriminate Hr.
Qed.

Lemma run_async_returns_when_typed_witness :
  schema_typed {[ lit "command" := VStr (lit "ls") ]}
  ∧ returns ExecuteCommandTool {[ lit "command" := VStr (lit "ls") ]} w0.
Proof.
  assert (schema_typed {[ lit "command" := VStr (lit "ls") ]}) as Hty.
  { repeat split; vm_compute; exact I. }
  split; [exact Hty|].
  destruct (run_async_returns_when_typed ExecuteCommandTool _ w0 Hty) as (r & w' & Hrun & _).
  exists r. by rewrite Hrun.
Defined.

Lemma run_async_result_shape_witness :
  success_shape ExecuteCommandTool
    (returned (fst (run_async ExecuteCommandTool {[ lit "command" := VStr (lit "ls") ]} w0)))
  ∨ failure_shape ExecuteCommandTool
      (returned (fst (run_async ExecuteCommandTool {[ lit "command" := VStr (lit "ls") ]} w0))).
Proof.
  set (o := run_async ExecuteCommandTool {[ lit "command" := VStr (lit "ls") ]} w0).
  assert (o = (Return (returned (fst o)), snd o)) as Hrun by (vm_compute; reflexivity).
  destruct (run_async_result_shape ExecuteCommandTool _ w0 _ _ Hrun) as [[Hs _]|[Hf _]];
    [by left|by right].
Defined.

(** ** Literals and decimal numbers *)

Lemma lit_inj (s t : string) : lit s = lit t → s = t.
Proof.
  unfold lit. intros Heq.
  assert (Inj (=) (=) (fun a => N_of_ascii a)) as Hinj.
  { intros a b Hab. rewrite <- (ascii_N_embedding a), <- (ascii_N_embedding b).
    by rewrite Hab. }
  apply (list_fmap_eq_inj _ Hinj) in Heq.
  rewrite <- (String.string_of_list_ascii_of_string s),
    <- (String.string_of_list_ascii_of_string t). by rewrite Heq.
Qed.

Section Names.
Context `{PyRuntime}.

Lemma decimal_inj (a b : N) : decimal a = decimal b → a = b.
Proof. unfold decimal. intros Heq. apply lit_inj in Heq. by apply (inj pretty) in Heq. Qed.

Lemma script_path_inj (a b : N) (e1 e2 : string) :
  e1 ∈ ["js"; "ts"]%string → e2 ∈ ["js"; "ts"]%string →
  script_path a e1 = script_path b e2 → a = b ∧ e1 = e2.
Proof.
  unfold script_path. intros He1 He2 Heq.
  apply app_inv_head in Heq.
  assert (length (lit "." ++ lit e1) = length (lit "." ++ lit e2)) as Hlen.
  { repeat (apply elem_of_cons in He1 as [->|He1]); [| |by apply elem_of_nil in He1];
      repeat (apply elem_of_cons in He2 as [->|He2]); try (by apply elem_of_nil in He2);
      reflexivity. }
  apply app_inj_2 in Heq as [Ha He]; [|exact Hlen].
  apply decimal_inj in Ha. apply app_inv_head in He. apply lit_inj in He. done.
Qed.

Lemma session_id_of_inj (a b : N) : session_id_of a = session_id_of b → a = b.
Proof. unfold session_id_of. intros Heq. apply app_inv_head in Heq. by apply decimal_inj. Qed.
End Names.

Section PathsAndSessions.
Context `{PyRuntime} {S : Type} `{Sandbox S}.

(** Every file a run uploads goes to one path. *)
Definition uploads_to (path : str) (w : World S) : outcome dict → World S → Prop :=
  fun _ w' => ∀ ev p, ev ∈ new_calls w w' → uploaded_path ev = Some p → p = VStr path.

(** C3, as amended: the script of a javascript or typescript call is
    uploaded to [/tmp/script_<id(self)>.<ext>], a path fixed by the tool
    instance and the language: every call on the same instance in the same
    language uses the same path, and two paths are the same exactly when the
    instance ids and the extensions are. *)
Theorem script_path_fixed_per_instance (self_id : N) (args : dict) (w : World S) (lang : str) :
  get args "language" (VStr (lit "python")) = VStr lang →
  str_lower lang = lit "javascript" ∨ str_lower lang = lit "typescript" →
  (∀ ev p, ev ∈ new_calls w (snd (run_async (ExecuteCodeTool self_id) args w)) →
           uploaded_path ev = Some p →
           p = VStr (script_path self_id (script_ext (str_lower lang))))
  ∧ (∀ (other : N) (ext ext' : string),
       ext ∈ ["js"; "ts"]%string → ext' ∈ ["js"; "ts"]%string →
       (script_path self_id ext = script_path other ext' ↔ self_id = other ∧ ext = ext')).
Proof.
  intros Elang Hlang. split.
  - change (wp (run_async (ExecuteCodeTool self_id) args)
              (uploads_to (script_path self_id (script_ext (str_lower lang))) w) w).
    unfold run_async, ExecuteCodeTool_run_async; cbv zeta. rewrite Elang.
    change (py_lower (VStr lang)) with (Return (VStr (str_lower lang))).
    repeat wp_step.
    all: unfold uploads_to, new_calls; cbn [calls];
      rewrite <- ?app_assoc, ?drop_app_length, ?drop_all;
      intros ev p Hin Hp;
      repeat (apply elem_of_cons in Hin as [->|Hin]);
      try (by apply elem_of_nil in Hin);
      cbn in Hp; try discriminate Hp; injection Hp as <-; reflexivity.
  - intros other ext ext' He He'. split.
    + by apply script_path_inj.
    + by intros [-> ->].
Qed.

Definition session_post (self_id : N) : outcome dict → World S → Prop :=
  fun o _ => match o with
             | Return r =>
                 contains r "error" = false →
                 r !! lit "session_id" = Some (VStr (session_id_of self_id))
             | Raise _ => True
             end.

(** C4, as amended: every successful call of the start-long-running-command
    tool returns the session id [long-running-<id(self)>]: it starts with the
    same prefix on every call and is fixed by the tool instance, so that all
    calls on one instance return the same id, and two instances return the
    same id exactly when their ids are the same. *)
Theorem session_id_fixed_per_instance (self_id : N) (args : dict) (w w' : World S) (r : dict) :
  run_async (StartLongRunningCommandTool self_id) args w = (Return r, w') →
  contains r "error" = false →
  r !! lit "session_id" = Some (VStr (session_id_of self_id))
  ∧ lit session_prefix `prefix_of` session_id_of self_id
  ∧ ∀ other : N, session_id_of self_id = session_id_of other ↔ self_id = other.
Proof.
  intros Hrun Hok. split; [|split].
  - revert Hok.
    apply (wp_run (run_async (StartLongRunningCommandTool self_id) args)
             (session_post self_id) w (Return r) w'); [|exact Hrun].
    clear Hrun r w'.
    unfold run_async, StartLongRunningCommandTool_run_async; cbv zeta.
    repeat wp_step.
    all: lazymatch goal with
         | |- session_post _ (Raise _) _ => exact I
         | |- session_post _ (Return ?r) _ =>
             lazymatch r with
             | context [lit "error"] =>
                 let Hc := fresh in
                 intros Hc; rewrite contains_insert_error in Hc; discriminate Hc
             | _ => intros _; apply lookup_insert_eq
             end
         end.
  - by eexists.
  - intros other. split; [apply session_id_of_inj|by intros ->].
Qed.
End PathsAndSessions.

(** C3, as the specification words it, fails: two calls on one tool
    instance upload their scripts to the same path. *)
Lemma script_path_repeats_on_one_instance :
  ¬ NoDup (omap uploaded_path
             (calls (snd (run_async (ExecuteCodeTool 7)
                            {[ lit "language" := VStr (lit "javascript") ]}
                            (snd (run_async (ExecuteCodeTool 7)
                                    {[ lit "language" := VStr (lit "javascript") ]}
                                    w0)))))).
Proof.
  intros Hnd. vm_compute in Hnd.
  apply NoDup_cons in Hnd as [Hnotin _]. apply Hnotin. apply elem_of_cons. by left.
Qed.

Lemma script_path_fixed_per_instance_witness :
  Forall (fun ev => uploaded_path ev = None
                    ∨ uploaded_path ev = Some (VStr (script_path 7 "ts")))
    (new_calls w0 (snd (run_async (ExecuteCodeTool 7)
                          {[ lit "language" := VStr (lit "TypeScript") ]} w0))).
Proof.
  apply Forall_forall. intros ev Hin.
  destruct (uploaded_path ev) as [p|] eqn:Hp; [right|by left].
  f_equal.
  exact (proj1 (script_path_fixed_per_instance 7
                  {[ lit "language" := VStr (lit "TypeScript") ]} w0 (lit "TypeScript")
                  eq_refl (or_intror eq_refl)) ev p Hin Hp).
Defined.

(** C4, as the specification words it, fails: two successful calls on one
    tool instance return the same session id. *)
Lemma session_id_repeats_on_one_instance :
  ¬ (session_id_returned
       (fst (run_async (StartLongRunningCommandTool 7) {[ lit "command" := VStr (lit "top") ]} w0))
     ≠ session_id_returned
         (fst (run_async (StartLongRunningCommandTool 7) {[ lit "command" := VStr (lit "top") ]}
                 (snd (run_async (StartLongRunningCommandTool 7)
                         {[ lit "command" := VStr (lit "top") ]} w0)))))
  ∧ is_Some (session_id_returned
               (fst (run_async (StartLongRunningCommandTool 7)
                       {[ lit "command" := VStr (lit "top") ]} w0))).
Proof. split; [intros Hne; apply Hne|]; vm_compute; eauto. Qed.

Lemma session_id_fixed_per_instance_witness :
  returned (fst (run_async (StartLongRunningCommandTool 7)
                   {[ lit "command" := VStr (lit "top") ]} w0)) !! lit "session_id"
  = Some (VStr (session_id_of 7)).
Proof.
  set (o := run_async (StartLongRunningCommandTool 7) {[ lit "command" := VStr (lit "top") ]} w0).
  assert (o = (Return (returned (fst o)), snd o)) as Hrun by (vm_compute; reflexivity).
  assert (contains (returned (fst o)) "error" = false) as Hok by (vm_compute; reflexivity).
  exact (proj1 (session_id_fixed_per_instance 7 _ w0 _ _ Hrun Hok)).
Defined.

(** ** Languages *)

Section Languages.
Context `{PyRuntime} {S : Type} `{Sandbox S}.

Lemma not_supported_branches (language : str) :
  ¬ supported language →
  str_eq (VStr language) "python" = false
  ∧ (str_eq (VStr language) "javascript" || str_eq (VStr language) "typescript") = false.
Proof.
  unfold supported, str_eq. intros Hns.
  rewrite !bool_decide_eq_false_2; [done|naive_solver..].
Qed.

(** C6, as amended: when the language argument is a string whose lower-case
    form is none of python, javascript and typescript (and the code argument
    has a length), the call makes no sandbox call and returns exactly
    [{error: "Unsupported language: <lower-case language>", exit_code: -1}]. *)
Theorem unsupported_language_makes_no_call
    (self_id : N) (args : dict) (w : World S) (lang : str) (n : nat) :
  args !! lit "language" = Some (VStr lang) →
  ¬ supported (str_lower lang) →
  py_len (get args "code" (VStr [])) = Return n →
  run_async (ExecuteCodeTool self_id) args w
  = (Return (unsupported_result (str_lower lang)), w).
Proof.
  intros Hlang Hns Hlen.
  destruct (not_supported_branches _ Hns) as [Hpy Hjs].
  unfold run_async, ExecuteCodeTool_run_async, bind, try_except, eval, ret; cbv zeta.
  unfold get at 1. rewrite Hlang. cbn [py_lower]. rewrite Hlen, Hpy, Hjs.
  reflexivity.
Qed.

Lemma casing_lower (s l : str) :
  Forall2 (fun c d => c = d ∨ (c + 32 = d ∧ 97 <= d ∧ d <= 122)) s l →
  Forall (fun d => 97 <= d ∧ d <= 122) l →
  is_ascii s = true ∧ (ascii_lower <$> s) = l.
Proof.
  induction 1 as [|c d s l Hcd _ IH]; [done|].
  intros Hl. apply Forall_cons in Hl as [Hd Hl]. destruct (IH Hl) as [Ha Hm].
  assert ((c <? 128) = true ∧ ascii_lower c = d) as [Hc1 Hc2].
  { unfold ascii_lower. split.
    - apply N.ltb_lt. lia.
    - destruct Hcd as [->|[<- _]].
      + destruct (N.leb_spec 65 d); destruct (N.leb_spec d 90); simpl; lia.
      + destruct (N.leb_spec 65 c); destruct (N.leb_spec c 90); simpl; lia. }
  simpl. rewrite Hc1, Ha, Hc2. by rewrite <- Hm.
Qed.

Lemma casing_str_lower (s : str) (name : string) :
  name ∈ ["python"; "javascript"; "typescript"]%string →
  casing s name → str_lower s = lit name.
Proof.
  intros Hname Hc.
  assert (Forall (fun d => 97 <= d ∧ d <= 122) (lit name)) as Hl.
  { repeat (apply elem_of_cons in Hname as [->|Hname]); [..|by apply elem_of_nil in Hname];
      vm_compute; repeat constructor; discriminate. }
  destruct (casing_lower _ _ Hc Hl) as [Ha Hm].
  unfold str_lower. by rewrite Ha.
Qed.

Lemma get_insert_eq (args : dict) (key : string) (v d : PyVal) :
  get (<[lit key := v]> args) key d = v.
Proof. unfold get. by rewrite lookup_insert_eq. Qed.

Lemma get_insert_ne (args : dict) (key key' : string) (v d : PyVal) :
  key ≠ key' → get (<[lit key := v]> args) key' d = get args key' d.
Proof.
  intros Hne. unfold get. rewrite lookup_insert_ne; [done|].
  intros Heq. by apply lit_inj in Heq.
Qed.

(** The sandbox calls of a run carry what [script_call] says, for the
    lower-case form of the language. *)
Lemma run_async_script_calls (self_id : N) (args : dict) (w : World S) (lang : str) :
  get args "language" (VStr (lit "python")) = VStr lang →
  Forall (fun ev => script_call self_id args (str_lower lang) (ev_call ev))
    (new_calls w (snd (run_async (ExecuteCodeTool self_id) args w))).
Proof.
  intros Hlang.
  change (wp (run_async (ExecuteCodeTool self_id) args)
            (fun _ w' => Forall (fun ev => script_call self_id args (str_lower lang) (ev_call ev))
                           (new_calls w w')) w).
  unfold run_async, ExecuteCodeTool_run_async; cbv zeta.
  rewrite Hlang. cbn [py_lower].
  repeat wp_step.
  all: unfold new_calls; cbn [calls]; rewrite <- ?app_assoc, ?drop_app_length, ?drop_all.
  all: repeat (apply Forall_cons; split); try apply Forall_nil_2.
  all: cbn [ev_call script_call]; cbv zeta.
  all: unfold script_ext, interpreter, str_eq in *.
  all: repeat match goal with
              | Hx : bool_decide (_ = lit "python") = true |- _ =>
                  apply bool_decide_eq_true in Hx
              | Hx : bool_decide (_ = lit "python") = false |- _ =>
                  apply bool_decide_eq_false in Hx
              end.
  all: match goal with
       | |- context [bool_decide (?l = lit "javascript")] =>
           destruct (bool_decide (l = lit "javascript"))
       | _ => idtac
       end.
  all: repeat match goal with
              | |- _ ∧ _ => split
              | Hj : py_join _ _ = Return ?j |- ∃ rest, _ => (exists (lit " " ++ j))
              | |- ∃ rest, _ => (exists [])
              end.
  all: rewrite <- ?app_assoc, ?app_nil_r; try done.
  all: try (match goal with Hx : truthy _ = _ |- _ => rewrite Hx end; eauto).
Qed.

(** The kinds of the sandbox calls of a run are a beginning of the branch of
    the lower-case form of the language. *)
Lemma run_async_branch_kinds (self_id : N) (args : dict) (w : World S) (lang : str) :
  get args "language" (VStr (lit "python")) = VStr lang →
  kinds (new_calls w (snd (run_async (ExecuteCodeTool self_id) args w)))
    `prefix_of` branch (str_lower lang).
Proof.
  intros Hlang.
  change (wp (run_async (ExecuteCodeTool self_id) args)
            (fun _ w' => kinds (new_calls w w') `prefix_of` branch (str_lower lang)) w).
  unfold run_async, ExecuteCodeTool_run_async; cbv zeta.
  rewrite Hlang. cbn [py_lower].
  repeat wp_step.
  all: unfold new_calls; cbn [calls]; rewrite <- ?app_assoc, ?drop_app_length, ?drop_all.
  all: cbn [kinds fmap list_fmap call_kind ev_call app].
  all: unfold branch, str_eq in *.
  all: repeat match goal with
              | Hx : bool_decide (_ = lit "python") = _ |- _ => rewrite Hx
              end.
  all: try (by eexists).
  all: apply prefix_nil.
Qed.

(** A language the tool knows gets its sandbox call, when nothing stops the
    call before: the code has a length, and a script can be encoded. *)
Lemma run_async_supported_calls
    (self_id : N) (args : dict) (w : World S) (lang : str) (n : nat) :
  get args "language" (VStr (lit "python")) = VStr lang →
  supported (str_lower lang) →
  py_len (get args "code" (VStr [])) = Return n →
  (str_lower lang = lit "python"
   ∨ ∃ bs, py_encode (get args "code" (VStr [])) = Return bs) →
  new_calls w (snd (run_async (ExecuteCodeTool self_id) args w)) ≠ [].
Proof.
  intros Hlang Hsup Hlen Henc.
  change (wp (run_async (ExecuteCodeTool self_id) args)
            (fun _ w' => new_calls w w' ≠ []) w).
  unfold run_async, ExecuteCodeTool_run_async; cbv zeta.
  rewrite Hlang. cbn [py_lower]. rewrite Hlen.
  destruct Hsup as [Hs|[Hs|Hs]]; rewrite Hs in *.
  - repeat wp_step;
      try match goal with Hx : _ = false |- _ => discriminate Hx end;
      unfold new_calls; cbn [calls]; rewrite <- ?app_assoc, drop_app_length;
      intros Hx; discriminate Hx.
  - destruct Henc as [Hx|[bs Hbs]]; [discriminate Hx|]. rewrite Hbs.
    repeat wp_step;
      try match goal with Hx : _ = false |- _ => discriminate Hx end;
      unfold new_calls; cbn [calls]; rewrite <- ?app_assoc, drop_app_length;
      intros Hx; discriminate Hx.
  - destruct Henc as [Hx|[bs Hbs]]; [discriminate Hx|]. rewrite Hbs.
    repeat wp_step;
      try match goal with Hx : _ = false |- _ => discriminate Hx end;
      unfold new_calls; cbn [calls]; rewrite <- ?app_assoc, drop_app_length;
      intros Hx; discriminate Hx.
Qed.

(** C9: the language is matched without regard to case: a language argument
    that spells python, javascript or typescript in any casing is lowered to
    that name and the call does exactly what it does for the lower-case
    spelling; it takes the branch of that language: its sandbox calls are a
    beginning of [code_run] for python and of upload, [exec], delete for the
    two others, they carry what the branch hands on (the code, the script
    path with the extension of the language, [node] or the ts-node line),
    and the first of them is made whenever the code has a length and, for a
    script, can be encoded; a language that is not supported is reported
    in its lower-case form. *)
Theorem language_is_case_insensitive
    (self_id : N) (args : dict) (w : World S) (s : str) (name : string) :
  name ∈ ["python"; "javascript"; "typescript"]%string →
  casing s name →
  py_lower (VStr s) = Return (VStr (lit name))
  ∧ run_async (ExecuteCodeTool self_id) (<[lit "language" := VStr s]> args) w
    = run_async (ExecuteCodeTool self_id) (<[lit "language" := VStr (lit name)]> args) w
  ∧ selects_branch self_id (<[lit "language" := VStr s]> args) (lit name)
      (new_calls w
         (snd (run_async (ExecuteCodeTool self_id) (<[lit "language" := VStr s]> args) w)))
  ∧ ∀ (t : str) (n : nat),
      ¬ supported (str_lower t) →
      py_len (get args "code" (VStr [])) = Return n →
      error_returned
        (fst (run_async (ExecuteCodeTool self_id) (<[lit "language" := VStr t]> args) w))
      = Some (VStr (lit "Unsupported language: " ++ str_lower t)).
Proof.
  intros Hname Hc.
  pose proof (casing_str_lower s name Hname Hc) as Hlow.
  assert (str_lower (lit name) = lit name) as Hcanon.
  { repeat (apply elem_of_cons in Hname as [->|Hname]); [..|by apply elem_of_nil in Hname];
      reflexivity. }
  assert (supported (lit name)) as Hsup.
  { unfold supported.
    repeat (apply elem_of_cons in Hname as [->|Hname]); [..|by apply elem_of_nil in Hname];
      tauto. }
  split; [|split; [|split]].
  - cbn [py_lower]. by rewrite Hlow.
  - unfold run_async, ExecuteCodeTool_run_async, get_opt; cbv zeta.
    rewrite !get_insert_eq, !get_insert_ne by done.
    cbn [py_lower]. by rewrite Hlow, Hcanon.
  - assert (get (<[lit "language" := VStr s]> args) "language" (VStr (lit "python")) = VStr s)
      as Hlang by apply get_insert_eq.
    unfold selects_branch. rewrite <- Hlow. split; [|split].
    + by apply run_async_branch_kinds.
    + by apply run_async_script_calls.
    + intros n Hlen Henc. apply (run_async_supported_calls _ _ _ s n); try done.
      by rewrite Hlow.
  - intros t n Hns Hlen.
    destruct (not_supported_branches _ Hns) as [Hpy Hjs].
    unfold run_async, ExecuteCodeTool_run_async, bind, try_except, eval, ret; cbv zeta.
    rewrite get_insert_eq, get_insert_ne by done.
    cbn [py_lower]. rewrite Hlen, Hpy, Hjs.
    reflexivity.
Qed.
End Languages.

(** The wording of C6, at one language: a language outside the three names
    gets no sandbox call and the error names the language as it was given. *)
Definition unsupported_as_worded (lang : str) : Prop :=
  ¬ supported lang →
  run_async (ExecuteCodeTool 7)
    {[ lit "code" := VStr (lit "1"); lit "language" := VStr lang ]} w0
  = (Return (unsupported_result lang), w0).

(** C6, as the specification words it, fails: the language is lowered
    before it is matched and reported, so [Ruby] is reported as [ruby], and
    [PYTHON], which is none of the three names as written, is run as
    python. *)
Lemma unsupported_language_is_lowered_first :
  ¬ unsupported_as_worded (lit "Ruby") ∧ ¬ unsupported_as_worded (lit "PYTHON").
Proof.
  split; intros Hc.
  - assert (¬ supported (lit "Ruby")) as Hns.
    { intros [Hx|[Hx|Hx]]; vm_compute in Hx; discriminate Hx. }
    specialize (Hc Hns).
    apply (f_equal (fun p => error_returned (fst p))) in Hc.
    vm_compute in Hc. discriminate Hc.
  - assert (¬ supported (lit "PYTHON")) as Hns.
    { intros [Hx|[Hx|Hx]]; vm_compute in Hx; discriminate Hx. }
    specialize (Hc Hns).
    apply (f_equal (fun p => length (calls (snd p)))) in Hc.
    vm_compute in Hc. discriminate Hc.
Qed.

Lemma unsupported_language_makes_no_call_witness :
  run_async (ExecuteCodeTool 7)
    {[ lit "code" := VStr (lit "1"); lit "language" := VStr (lit "Ruby") ]} w0
  = (Return (unsupported_result (lit "ruby")), w0).
Proof.
  refine (unsupported_language_makes_no_call 7 _ w0 (lit "Ruby") 1 _ _ _).
  - reflexivity.
  - intros [Hx|[Hx|Hx]]; vm_compute in Hx; discriminate Hx.
  - reflexivity.
Defined.

Lemma language_is_case_insensitive_witness :
  py_lower (VStr (lit "PyThOn")) = Return (VStr (lit "python"))
  ∧ selects_branch 7 (<[lit "language" := VStr (lit "PyThOn")]> ∅) (lit "python")
      (new_calls w0
         (snd (run_async (ExecuteCodeTool 7) (<[lit "language" := VStr (lit "PyThOn")]> ∅) w0))).
Proof.
  assert ("python" ∈ ["python"; "javascript"; "typescript"]%string) as Hname.
  { apply elem_of_cons. by left. }
  assert (casing (lit "PyThOn") "python") as Hc.
  { unfold casing. vm_compute.
    repeat (constructor;
            [first [left; reflexivity
                   | right; split; [reflexivity|split; intros Hx; discriminate Hx]]|]).
    constructor. }
  pose proof (language_is_case_insensitive 7 ∅ w0 (lit "PyThOn") "python" Hname Hc)
    as (Hlow & _ & Hsel & _).
  exact (conj Hlow Hsel).
Defined.

(** ** Upload and read *)

Section RoundTrip.
Context `{PyRuntime} {S : Type} `{Sandbox S}.

(** C8, as amended: on a sandbox whose filesystem stores what is uploaded
    and hands it back, for every path [p] and every text [c] that UTF-8 can
    encode (no lone surrogate), uploading [c] to [p] succeeds and reading
    [p] right after returns the success mapping whose content is [c]. *)
Theorem upload_then_read_roundtrip (p c : str) (w : World S) :
  fs_returns_stored →
  encodable c →
  ∃ w1 w2,
    run_async UploadFileTool {[ lit "file_path" := VStr p; lit "content" := VStr c ]} w
    = (Return {[ lit "success" := VBool true; lit "path" := VStr p ]}, w1)
    ∧ run_async ReadFileTool {[ lit "file_path" := VStr p ]} w1
      = (Return {[ lit "content" := VStr c; lit "path" := VStr p ]}, w2).
Proof.
  intros Hfs Henc.
  destruct (utf8_roundtrip c Henc) as (bs & Hbs & Hdec).
  destruct (Hfs bs p (sandbox w)) as (s' & s'' & Hup & Hdown).
  eexists _, _. split.
  - unfold run_async, UploadFileTool_run_async, bind, try_except, eval, call, ret; cbv zeta.
    change (get {[ lit "file_path" := VStr p; lit "content" := VStr c ]} "content" (VStr []))
      with (VStr c).
    change (get {[ lit "file_path" := VStr p; lit "content" := VStr c ]} "file_path" (VStr []))
      with (VStr p).
    cbn [py_len py_encode]. rewrite Hbs, Hup. reflexivity.
  - unfold run_async, ReadFileTool_run_async, bind, try_except, eval, call, ret; cbv zeta.
    change (get {[ lit "file_path" := VStr p ]} "file_path" (VStr [])) with (VStr p).
    cbn [sandbox]. rewrite Hdown. cbn [py_decode]. rewrite Hdec. reflexivity.
Qed.
End RoundTrip.

Lemma fs_sandbox_returns_stored : fs_returns_stored (S := gmap (list N) (list N)).
Proof.
  intros b p fs. exists (<[p := b]> fs), (<[p := b]> fs). split; [reflexivity|].
  cbn. by rewrite lookup_insert_eq.
Qed.

(** C8, as the specification words it, fails for a text with a lone
    surrogate, which a Python [str] can hold: [encode] raises, the upload
    returns the failure shape and the file is never written. *)
Lemma lone_surrogate_is_not_uploaded :
  fs_returns_stored (S := gmap (list N) (list N))
  ∧ ¬ (∃ w1 w2,
         run_async UploadFileTool
           {[ lit "file_path" := VStr (lit "/tmp/f"); lit "content" := VStr [0xD800] ]} w0
         = (Return {[ lit "success" := VBool true; lit "path" := VStr (lit "/tmp/f") ]}, w1)
         ∧ run_async ReadFileTool {[ lit "file_path" := VStr (lit "/tmp/f") ]} w1
           = (Return {[ lit "content" := VStr [0xD800]; lit "path" := VStr (lit "/tmp/f") ]}, w2)).
Proof.
  split; [exact fs_sandbox_returns_stored|].
  intros (w1 & w2 & Hup & _).
  apply (f_equal (fun o => contains (returned (fst o)) "error")) in Hup.
  vm_compute in Hup. discriminate Hup.
Qed.

Lemma upload_then_read_roundtrip_witness :
  ∃ w1 w2,
    run_async UploadFileTool
      {[ lit "file_path" := VStr (lit "/tmp/f"); lit "content" := VStr [104; 233; 8364; 128512] ]} w0
    = (Return {[ lit "success" := VBool true; lit "path" := VStr (lit "/tmp/f") ]}, w1)
    ∧ run_async ReadFileTool {[ lit "file_path" := VStr (lit "/tmp/f") ]} w1
      = (Return {[ lit "content" := VStr [104; 233; 8364; 128512];
                   lit "path" := VStr (lit "/tmp/f") ]}, w2).
Proof.
  apply (upload_then_read_roundtrip (lit "/tmp/f") [104; 233; 8364; 128512] w0).
  - exact fs_sandbox_returns_stored.
  - repeat constructor.
Defined.

(** ** Missing arguments *)

Section MissingArguments.
Context `{PyRuntime} {S : Type} `{Sandbox S}.

Lemma get_absent (args : dict) (key : string) (d : PyVal) :
  args !! lit key = None → get args key d = d.
Proof. unfold get. by intros ->. Qed.

Lemma typed_get_cases (args : dict) (key : string) (d : str) :
  str_or_absent args key →
  (args !! lit key = None ∧ get args key (VStr d) = VStr d)
  ∨ ∃ s, args !! lit key = Some (VStr s) ∧ get args key (VStr d) = VStr s.
Proof.
  unfold str_or_absent, get. destruct (args !! lit key) as [[]|]; try done; eauto.
Qed.

(** At least one sandbox call was made. *)
Definition called_post (w : World S) : outcome dict → World S → Prop :=
  fun _ w' => new_calls w w' ≠ [].

Ltac called_leaf :=
  lazymatch goal with
  | |- called_post _ _ {| sandbox := _; calls := _ |} =>
      unfold called_post, new_calls; cbn [calls];
      rewrite <- ?app_assoc, drop_app_length;
      let Hx := fresh in intros Hx; discriminate Hx
  | _ =>
      match goal with
      | Hx : _ = Raise _ |- _ => discriminate Hx
      | Hx : _ = false |- _ => discriminate Hx
      end
  end.

Lemma run_async_reaches_sandbox (tool : Tool) (key : string) (args : dict) (w : World S) :
  key ∈ required tool → args !! lit key = None →
  reaches_sandbox tool args →
  new_calls w (snd (run_async tool args w)) ≠ [].
Proof.
  intros Hkey Hnone [(Hcode & Hlang & Hcmd & Hpath & Hcontent) Hreach].
  change (wp (run_async tool args) (called_post w) w).
  destruct tool; cbn [required] in Hkey;
    repeat (apply elem_of_cons in Hkey as [->|Hkey]); try (by apply elem_of_nil in Hkey);
    unfold run_async, ExecuteCodeTool_run_async, ExecuteCommandTool_run_async,
      UploadFileTool_run_async, ReadFileTool_run_async,
      StartLongRunningCommandTool_run_async; cbv zeta.
  - (* ExecuteCodeTool, no code *)
    destruct Hreach as (lang & Elang & Hsup).
    rewrite (get_absent args "code" _ Hnone), Elang. cbn [py_lower].
    destruct Hsup as [Hs|[Hs|Hs]]; rewrite Hs; repeat wp_step; called_leaf.
  - (* ExecuteCommandTool, no command *)
    rewrite (get_absent args "command" _ Hnone). repeat wp_step; called_leaf.
  - (* UploadFileTool, no file_path *)
    rewrite (get_absent args "file_path" _ Hnone).
    assert (∃ c, get args "content" (VStr []) = VStr c ∧ encodable c) as (c & Ec & Henc).
    { destruct (typed_get_cases args "content" [] Hcontent) as [[_ ->]|(c & Hc & ->)].
      - exists []. split; [done|constructor].
      - exists c. split; [done|by apply Hreach]. }
    destruct (utf8_roundtrip c Henc) as (bs & Hbs & _).
    rewrite Ec. cbn [py_len py_encode]. rewrite Hbs. repeat wp_step; called_leaf.
  - (* UploadFileTool, no content *)
    rewrite (get_absent args "content" _ Hnone). repeat wp_step; called_leaf.
  - (* ReadFileTool, no file_path *)
    repeat wp_step; called_leaf.
  - (* StartLongRunningCommandTool, no command *)
    rewrite (get_absent args "command" _ Hnone). repeat wp_step; called_leaf.
Qed.

Lemma run_async_default_empty (tool : Tool) (key : string) (args : dict) (w : World S) :
  key ∈ required tool → args !! lit key = None →
  run_async tool args w = run_async tool (<[lit key := VStr []]> args) w.
Proof.
  intros Hkey Hnone.
  destruct tool; cbn [required] in Hkey;
    repeat (apply elem_of_cons in Hkey as [->|Hkey]); try (by apply elem_of_nil in Hkey);
    unfold run_async, ExecuteCodeTool_run_async, ExecuteCommandTool_run_async,
      UploadFileTool_run_async, ReadFileTool_run_async,
      StartLongRunningCommandTool_run_async, get_opt; cbv zeta;
    rewrite ?get_insert_eq, ?get_insert_ne by done;
    rewrite ?(get_absent args _ _ Hnone); reflexivity.
Qed.

(** C10, as amended: no tool checks that its required string arguments are
    there. When [code], [command], [file_path] or [content] is missing, the
    call does exactly what it does when that argument is the empty string,
    so no missing-argument error is ever returned; and when nothing else
    stops the call before its first sandbox call (the typed arguments hold
    strings, the language of the execute-code tool is one it knows, the
    content to upload can be encoded), the sandbox call is made. *)
Theorem missing_argument_defaults_to_empty
    (tool : Tool) (key : string) (args : dict) (w : World S) :
  key ∈ required tool → args !! lit key = None →
  run_async tool args w = run_async tool (<[lit key := VStr []]> args) w
  ∧ (reaches_sandbox tool args → new_calls w (snd (run_async tool args w)) ≠ []).
Proof.
  intros Hkey Hnone. split.
  - by apply run_async_default_empty.
  - by apply (run_async_reaches_sandbox tool key).
Qed.
End MissingArguments.

(** C10, as the specification words it, fails: without [code] and with a
    language it does not know, the execute-code tool makes no sandbox
    call. *)
Lemma missing_code_with_unknown_language_makes_no_call :
  ¬ (∀ (tool : Tool) (key : string) (args : dict),
       key ∈ required tool → args !! lit key = None →
       new_calls w0 (snd (run_async tool args w0)) ≠ []).
Proof.
  intros Hall.
  apply (Hall (ExecuteCodeTool 7) "code" {[ lit "language" := VStr (lit "ruby") ]}).
  - apply elem_of_cons. by left.
  - reflexivity.
  - vm_compute. reflexivity.
Qed.

Lemma missing_argument_defaults_to_empty_witness :
  new_calls w0 (snd (run_async ExecuteCommandTool ∅ w0)) ≠ [].
Proof.
  refine (proj2 (missing_argument_defaults_to_empty ExecuteCommandTool "command" ∅ w0 _ _) _).
  - apply elem_of_cons. by left.
  - reflexivity.
  - split; [|exact I]. repeat split; exact I.
Defined.

(** * The rest of the two modules *)

(** ** Tool declarations: [__init__] and [_get_declaration] *)

(** [google.genai.types.Type], as far as the declarations use it. *)
Inductive SchemaType : Type := OBJECT | STRING | INTEGER | ARRAY.

(** [google.genai.types.Schema]: the fields the declarations set. *)
Inductive Schema : Type :=
  MkSchema (type : SchemaType) (description : option string) (enum : list string)
           (items : option Schema) (properties : list (string * Schema))
           (required : list string).

Definition schema_properties (s : Schema) : list (string * Schema) :=
  match s with MkSchema _ _ _ _ properties _ => properties end.

Definition schema_required (s : Schema) : list string :=
  match s with MkSchema _ _ _ _ _ required => required end.

Definition schema_enum (s : Schema) : list string :=
  match s with MkSchema _ _ enum _ _ _ => enum end.

(** A property of a given type with a description and nothing else. *)
Definition property (type : SchemaType) (description : string) : Schema :=
  MkSchema type (Some description) [] None [] [].

(** [google.genai.types.FunctionDeclaration]. *)
Record FunctionDeclaration : Type := {
  decl_name : string;
  decl_description : string;
  parameters : Schema
}.

(** [BaseTool.name], as each [__init__] sets it. *)
Definition tool_name (tool : Tool) : string :=
  match tool with
  | ExecuteCodeTool _ => "execute_code_in_daytona"
  | ExecuteCommandTool => "execute_command_in_daytona"
  | UploadFileTool => "upload_file_to_daytona"
  | ReadFileTool => "read_file_from_daytona"
  | StartLongRunningCommandTool _ => "start_long_running_command_daytona"
  end.

(** [BaseTool.description]. *)
Definition tool_description (tool : Tool) : string :=
  match tool with
  | ExecuteCodeTool _ =>
      "Execute Python, JavaScript, or TypeScript code inside the Daytona sandbox. " ++
      "Provide the code snippet and language. " ++
      "Supported languages: 'python' (default), 'javascript', 'typescript'."
  | ExecuteCommandTool =>
      "Execute a shell command inside the Daytona sandbox. Provide the command to run."
  | UploadFileTool =>
      "Upload a file to the Daytona sandbox. Provide the file path and content."
  | ReadFileTool => "Read a file from the Daytona sandbox. Provide the file path."
  | StartLongRunningCommandTool _ =>
      "Start a long-running command in the Daytona sandbox " ++
      "(e.g., npm run dev, python server.py). " ++
      "Returns a session ID that can be used to check status or stop the process."
  end.

(** [BaseTool.is_long_running]: set by one tool only. *)
Definition is_long_running (tool : Tool) : bool :=
  match tool with
  | StartLongRunningCommandTool _ => true
  | _ => false
  end.

Definition object_schema (properties : list (string * Schema)) (required : list string)
  : Schema :=
  MkSchema OBJECT None [] None properties required.

(** [_get_declaration] of each tool. *)
Definition _get_declaration (tool : Tool) : FunctionDeclaration :=
  {| decl_name := tool_name tool;
     decl_description := tool_description tool;
     parameters :=
       match tool with
       | ExecuteCodeTool _ =>
           object_schema
             [("code", property STRING "The code snippet to execute.");
              ("language",
               MkSchema STRING
                 (Some "Programming language: 'python' (default), 'javascript', or 'typescript'.")
                 ["python"; "javascript"; "typescript"] None [] []);
              ("env", property OBJECT "Optional environment variables as key-value pairs.");
              ("argv",
               MkSchema ARRAY (Some "Optional command line arguments.") []
                 (Some (MkSchema STRING None [] None [] [])) [] []);
              ("timeout", property INTEGER "Optional timeout in seconds.")]
             ["code"; "language"]
       | ExecuteCommandTool =>
           object_schema
             [("command", property STRING "The shell command to execute.");
              ("cwd", property STRING "Optional working directory for the command.");
              ("env", property OBJECT "Optional environment variables as key-value pairs.");
              ("timeout", property INTEGER "Optional timeout in seconds.")]
             ["command"]
       | UploadFileTool =>
           object_schema
             [("file_path", property STRING "The destination path in the sandbox.");
              ("content", property STRING "The file content to upload.")]
             ["file_path"; "content"]
       | ReadFileTool =>
           object_schema
             [("file_path", property STRING "The path of the file to read.")]
             ["file_path"]
       | StartLongRunningCommandTool _ =>
           object_schema
             [("command", property STRING "The long-running command to start.");
              ("timeout", property INTEGER "Optional timeout in seconds for the command.")]
             ["command"]
       end |}.

(** The names of the arguments a tool declares. *)
Definition declared (tool : Tool) : list string :=
  fst <$> schema_properties (parameters (_get_declaration tool)).

(** The schema a declaration gives the argument [name]. *)
Definition declared_property (tool : Tool) (name : string) : option Schema :=
  match list_find (fun p => fst p = name)
          (schema_properties (parameters (_get_declaration tool))) with
  | Some (_, (_, s)) => Some s
  | None => None
  end.

(** The languages the execute-code declaration offers. *)
Definition declared_languages : list string :=
  match declared_property (ExecuteCodeTool 0) "language" with
  | Some s => schema_enum s
  | None => []
  end.

(** ** The plugin's constructor, its tools and its other hooks *)

(** [daytona.CreateSandboxBaseParams], as [__init__] fills it. *)
Record CreateSandboxBaseParams : Type := {
  sandbox_name : PyVal;
  env_vars : PyVal;
  labels : PyVal;
  auto_stop_interval : PyVal;
  auto_delete_interval : PyVal
}.

(** The provider side of construction, from outside the repository:
    [Daytona(DaytonaConfig(api_key=api_key))] gives the client or raises;
    [CreateSandboxBaseParams(...)] is a validating model, which gives the
    parameters as it keeps them or raises; [create] gives a sandbox or
    raises; and [sandbox_text] is the text of the sandbox object that
    [print] writes. *)
Class Provisioner (D : Type) : Type := {
  connect : PyVal → D → outcome unit * D;
  validate : CreateSandboxBaseParams → outcome CreateSandboxBaseParams;
  create : CreateSandboxBaseParams → D → outcome N * D;
  sandbox_text : N → D → str
}.

(** What [get_tools] builds a tool from: the sandbox reference the plugin
    holds at that moment. *)
Record ToolObject : Type := { tool_kind : Tool; tool_sandbox : option N }.

(** The calls the host makes on the plugin. *)
Inductive HookCall : Type :=
  | BeforeAgent
  | AfterAgent
  | BeforeTool (tool_args : dict)
  | AfterTool (name : str) (result : dict)
  | Close
  | DestroySandbox.

Section PluginRest.
Context `{PyRuntime} {D : Type} `{Daytona D} `{Stdout D} `{Provisioner D}.

(** [DaytonaPlugin.__init__], run in the world [d]; the plugin name goes to
    the host's base class. The parameters are validated after the client is
    built and before [create] is called; the sandbox is printed after it was
    created. A step that raises ends the construction, and no plugin
    exists then. *)
Definition DaytonaPlugin_init
    (api_key sandbox_name env_vars labels auto_stop_interval auto_delete_interval : PyVal)
    (d : D)
  : outcome (DaytonaPlugin D) * D :=
  match connect api_key d with
  | (Return _, d) =>
      match validate {| sandbox_name := sandbox_name; env_vars := env_vars;
                        labels := labels; auto_stop_interval := auto_stop_interval;
                        auto_delete_interval := auto_delete_interval |} with
      | Return params =>
          match create params d with
          | (Return sb, d) =>
              match say (sandbox_text sb d)
                      {| _daytona := d; _sandbox := Some sb; deletions := [];
                         printed := [] |} with
              | (Return _, self) => (Return self, _daytona self)
              | (Raise e, self) => (Raise e, _daytona self)
              end
          | (Raise e, d) => (Raise e, d)
          end
      | Raise e => (Raise e, d)
      end
  | (Raise e, d) => (Raise e, d)
  end.

(** [get_tools]: five new tool objects around [self._sandbox]; [code_id]
    and [start_id] are the addresses the two tools that use [id(self)] are
    allocated at. *)
Definition get_tools (self : DaytonaPlugin D) (code_id start_id : N) : list ToolObject :=
  (fun kind => {| tool_kind := kind; tool_sandbox := _sandbox self |}) <$>
    [ExecuteCodeTool code_id; ExecuteCommandTool; UploadFileTool; ReadFileTool;
     StartLongRunningCommandTool start_id].

(** [before_agent_callback], [after_agent_callback], [before_tool_callback]. *)
Definition before_agent_callback (self : DaytonaPlugin D) : outcome PyVal * DaytonaPlugin D :=
  (Return VNone, self).

Definition after_agent_callback (self : DaytonaPlugin D) : outcome PyVal * DaytonaPlugin D :=
  (Return VNone, self).

Definition before_tool_callback (tool_args : dict) (self : DaytonaPlugin D)
  : outcome PyVal * DaytonaPlugin D :=
  (Return VNone, self).

(** One call of the host on the plugin. *)
Definition call_hook (h : HookCall) (self : DaytonaPlugin D)
  : outcome PyVal * DaytonaPlugin D :=
  match h with
  | BeforeAgent => before_agent_callback self
  | AfterAgent => after_agent_callback self
  | BeforeTool tool_args => before_tool_callback tool_args self
  | AfterTool name result => after_tool_callback name result self
  | Close =>
      match close self with
      | (Return _, self') => (Return VNone, self')
      | (Raise e, self') => (Raise e, self')
      end
  | DestroySandbox =>
      match destroy_sandbox self with
      | (Return _, self') => (Return VNone, self')
      | (Raise e, self') => (Raise e, self')
      end
  end.

(** The plugin after a sequence of calls, oldest first. *)
Definition run_hooks (hs : list HookCall) (self : DaytonaPlugin D) : DaytonaPlugin D :=
  foldl (fun self h => snd (call_hook h self)) self hs.

(** What holds of the delete requests at every moment of a plugin that was
    built around the sandbox [sb]: every request names [sb]; while the
    reference is held every request so far has failed; once it is gone,
    exactly the last request succeeded. *)
Definition lifecycle_inv (sb : N) (self : DaytonaPlugin D) : Prop :=
  Forall (fun d => fst d = sb) (deletions self)
  ∧ match _sandbox self with
    | Some sb' => sb' = sb ∧ Forall (fun d => is_Some (snd d)) (deletions self)
    | None =>
        ∃ failed, deletions self = failed ++ [(sb, None)]
                  ∧ Forall (fun d => is_Some (snd d)) failed
    end.
End PluginRest.

Section Acceptance.
Context `{PyRuntime}.

Definition has_len (v : PyVal) : bool :=
  match v with VStr _ | VBytes _ | VList _ | VDict _ => true | _ => false end.

Definition sliceable (v : PyVal) : bool :=
  match v with VStr _ | VBytes _ | VList _ => true | _ => false end.

Definition has_lower (v : PyVal) : bool :=
  match v with VStr _ | VBytes _ => true | _ => false end.

(** The argument mappings a tool takes without raising. *)
Definition accepts (tool : Tool) (args : dict) : bool :=
  match tool with
  | ExecuteCodeTool _ =>
      has_lower (get args "language" (VStr (lit "python")))
      && has_len (get args "code" (VStr []))
  | ExecuteCommandTool | StartLongRunningCommandTool _ =>
      sliceable (get args "command" (VStr []))
  | UploadFileTool => has_len (get args "content" (VStr []))
  | ReadFileTool => true
  end.
End Acceptance.

(** ** What the sandbox calls carry *)

Section CallContents.
Context `{PyRuntime} {S : Type} `{Sandbox S}.

(** The text argument a tool uploads. *)
Definition uploaded_text (tool : Tool) (args : dict) : PyVal :=
  match tool with
  | ExecuteCodeTool _ => get args "code" (VStr [])
  | UploadFileTool => get args "content" (VStr [])
  | _ => VNone
  end.

(** A logged call belongs to the session of the tool at [self_id] and hands
    the arguments on as they came. *)
Definition session_call (self_id : N) (args : dict) (c : Call) : Prop :=
  match c with
  | CreateSession sid => sid = VStr (session_id_of self_id)
  | ExecuteSessionCommand sid req timeout =>
      sid = VStr (session_id_of self_id)
      ∧ new_session_execute_request (get args "command" (VStr [])) true = Return req
      ∧ timeout = get_opt args "timeout"
  | _ => False
  end.

End CallContents.

(** The calls of a run, without what they raised. *)
Definition calls_made (p : outcome dict * World (gmap (list N) (list N))) : list Call :=
  ev_call <$> calls (snd p).

(** * More of the code, verified *)

Ltac unfold_run :=
  unfold run_async, ExecuteCodeTool_run_async, ExecuteCommandTool_run_async,
    UploadFileTool_run_async, ReadFileTool_run_async,
    StartLongRunningCommandTool_run_async; cbv zeta.

(** Splits [ev ∈ [e1; ...; en]] into its cases. *)
Ltac elem_cases Hin :=
  repeat (apply elem_of_cons in Hin as [->|Hin]); try (by apply elem_of_nil in Hin).

(** ** The lifetime of the sandbox *)

Section Lifetime.
Context `{PyRuntime} {D : Type} `{Daytona D} `{Stdout D} `{Provisioner D}.

Lemma lifecycle_inv_ext (sb : N) (self self' : DaytonaPlugin D) :
  _sandbox self' = _sandbox self → deletions self' = deletions self →
  lifecycle_inv sb self → lifecycle_inv sb self'.
Proof. unfold lifecycle_inv. by intros -> ->. Qed.

Lemma lifecycle_inv_say (sb : N) (text : str) (self : DaytonaPlugin D) :
  lifecycle_inv sb self → lifecycle_inv sb (snd (say text self)).
Proof.
  destruct (say_keeps text self) as (Hs & Hd & _). by apply lifecycle_inv_ext.
Qed.

Lemma lifecycle_inv_destroy (sb : N) (self : DaytonaPlugin D) :
  lifecycle_inv sb self → lifecycle_inv sb (snd (destroy_sandbox self)).
Proof.
  intros Hinv.
  destruct (_sandbox self) as [sb'|] eqn:Hsb;
    [|by rewrite (destroy_sandbox_absent self Hsb)].
  destruct (destroy_sandbox_cases sb' self Hsb) as (prints & dels & _ & Hdels & Hcases).
  destruct Hinv as [Hall Hcase]. rewrite Hsb in Hcase. destruct Hcase as [-> Hfailed].
  unfold lifecycle_inv. rewrite Hdels.
  destruct Hcases as [(e & o & _ & -> & -> & _)|[(e & o & _ & -> & -> & _)
                     |[(e & o & _ & -> & -> & _)|(_ & -> & -> & _)]]].
  - rewrite app_nil_r. done.
  - split; [apply Forall_app; by repeat constructor|].
    split; [done|]. apply Forall_app. split; [done|]. repeat constructor. by eexists.
  - split; [apply Forall_app; by repeat constructor|]. by exists (deletions self).
  - split; [apply Forall_app; by repeat constructor|]. by exists (deletions self).
Qed.

(** What a call of the host leaves: the plugin as it was, or with one more
    line printed, or as [destroy_sandbox] leaves either of the two. *)
Lemma call_hook_cases (h : HookCall) (self : DaytonaPlugin D) :
  ∃ self1, (self1 = self ∨ ∃ text, self1 = snd (say text self))
           ∧ (snd (call_hook h self) = self1
              ∨ snd (call_hook h self) = snd (destroy_sandbox self1)).
Proof.
  destruct h as [| |tool_args|name res| |]; cbn [call_hook];
    unfold before_agent_callback, after_agent_callback,
      before_tool_callback, after_tool_callback, close.
  1-3: exists self; split; [by left|by left].
  - destruct (contains res "error"); [|exists self; split; [by left|by left]].
    exists (snd (say (failure_line name res) self)). split; [right; by eexists|].
    destruct (say (failure_line name res) self) as [[[]|e] self1]; cbn [snd]; [|by left].
    right. by destruct (destroy_sandbox self1) as [[[]|e] self2].
  - exists self. split; [by left|]. right.
    by destruct (destroy_sandbox self) as [[[]|e] self2].
  - exists self. split; [by left|]. right.
    by destruct (destroy_sandbox self) as [[[]|e] self2].
Qed.

Lemma lifecycle_inv_call_hook (sb : N) (h : HookCall) (self : DaytonaPlugin D) :
  lifecycle_inv sb self → lifecycle_inv sb (snd (call_hook h self)).
Proof.
  intros Hinv.
  destruct (call_hook_cases h self) as (self1 & Hself1 & [-> | ->]).
  - destruct Hself1 as [->|[text ->]]; [done|by apply lifecycle_inv_say].
  - apply lifecycle_inv_destroy.
    destruct Hself1 as [->|[text ->]]; [done|by apply lifecycle_inv_say].
Qed.

Lemma lifecycle_inv_run_hooks (sb : N) (hs : list HookCall) (self : DaytonaPlugin D) :
  lifecycle_inv sb self → lifecycle_inv sb (run_hooks hs self).
Proof.
  revert self. unfold run_hooks.
  induction hs as [|h hs IH]; intros self Hinv; [done|].
  cbn [foldl]. apply IH. by apply lifecycle_inv_call_hook.
Qed.

(** A call of the host returns [None], or raises what its last [print]
    raised. *)
Lemma call_hook_outcome (h : HookCall) (self : DaytonaPlugin D) :
  (∀ v, fst (call_hook h self) = Return v → v = VNone)
  ∧ raised_by_last_print (call_hook h self).
Proof.
  assert (∀ self0 : DaytonaPlugin D,
            (∀ v, fst (match destroy_sandbox self0 with
                       | (Return _, s) => (Return VNone, s)
                       | (Raise e, s) => (Raise e, s)
                       end) = Return v → v = VNone)
            ∧ raised_by_last_print
                (match destroy_sandbox self0 with
                 | (Return _, s) => (Return VNone, s)
                 | (Raise e, s) => (Raise e, s)
                 end)) as Hdestroy.
  { intros self0. pose proof (destroy_sandbox_raised_by_last_print self0) as Hlast.
    unfold raised_by_last_print in *.
    destruct (destroy_sandbox self0) as [[[]|e] s]; cbn [fst snd] in *.
    - split; [by intros v [= <-]|intros e Hx; discriminate Hx].
    - split; [intros v Hx; discriminate Hx|intros e' [= <-]; by apply Hlast]. }
  destruct h as [| |tool_args|name res| |]; cbn [call_hook];
    unfold before_agent_callback, after_agent_callback,
      before_tool_callback, after_tool_callback, close, raised_by_last_print.
  1-3: split; [by intros v [= <-]|intros e Hx; discriminate Hx].
  - destruct (contains res "error");
      [|split; [by intros v [= <-]|intros e Hx; discriminate Hx]].
    destruct (say_keeps (failure_line name res) self) as (_ & _ & Hp).
    destruct (say (failure_line name res) self) as [[[]|e] self1]; [apply Hdestroy|].
    cbn [fst snd raised] in *. split; [intros v Hx; discriminate Hx|].
    intros e' [= <-]. eexists. rewrite Hp. apply last_snoc.
  - apply Hdestroy.
  - apply Hdestroy.
Qed.

(** X1: a plugin built around one sandbox, under any sequence of calls the
    host makes on it (the four hooks, [close], [destroy_sandbox]), whether
    they return or raise: every delete request names that sandbox; requests
    go out only while the reference is held, so at most one request
    succeeds, it is the last one sent, and the reference is absent from then
    on; and every further call returns [None] or raises what its last
    [print] raised. *)
Theorem sandbox_deleted_at_most_once (sb : N) (self : DaytonaPlugin D) (hs : list HookCall) :
  _sandbox self = Some sb → deletions self = [] →
  lifecycle_inv sb (run_hooks hs self)
  ∧ ∀ h, (∀ v, fst (call_hook h (run_hooks hs self)) = Return v → v = VNone)
         ∧ raised_by_last_print (call_hook h (run_hooks hs self)).
Proof.
  intros Hsb Hnil. split.
  - apply lifecycle_inv_run_hooks. unfold lifecycle_inv. rewrite Hsb, Hnil.
    by repeat constructor.
  - intros h. apply call_hook_outcome.
Qed.

(** X2: the constructor, step by step. It raises when the client cannot be
    built, when the parameters do not pass their validation (no sandbox is
    asked for then), when [create] raises, or when the sandbox that was
    created cannot be printed: then the sandbox exists and no plugin holds
    it. Otherwise it gives a plugin that holds the sandbox [create]
    returned, has sent no delete request and has printed that sandbox; the
    first [close] of that plugin asks the provider to delete that sandbox
    and nothing else, unless its first line could not be printed. *)
Theorem init_holds_created_sandbox
    (api_key name env labels stop del : PyVal) (d : D) :
  let given := {| sandbox_name := name; env_vars := env; labels := labels;
                  auto_stop_interval := stop; auto_delete_interval := del |} in
  match DaytonaPlugin_init api_key name env labels stop del d with
  | (Return self, d') =>
      ∃ d1 params d2 sb,
        connect api_key d = (Return tt, d1)
        ∧ validate given = Return params
        ∧ create params d1 = (Return sb, d2)
        ∧ py_print (sandbox_text sb d2) d2 = (Return tt, d')
        ∧ self = {| _daytona := d'; _sandbox := Some sb; deletions := [];
                    printed := [(sandbox_text sb d2, None)] |}
        ∧ (fst <$> deletions (snd (close self)) = [sb]
           ∨ (deletions (snd (close self)) = []
              ∧ ∃ e, (lit "Deleting Daytona sandbox...", Some e)
                     ∈ printed (snd (close self))))
  | (Raise e, d') =>
      connect api_key d = (Raise e, d')
      ∨ (∃ d1, connect api_key d = (Return tt, d1)
               ∧ ((validate given = Raise e ∧ d' = d1)
                  ∨ ∃ params, validate given = Return params
                    ∧ (create params d1 = (Raise e, d')
                       ∨ ∃ d2 sb, create params d1 = (Return sb, d2)
                                  ∧ py_print (sandbox_text sb d2) d2 = (Raise e, d'))))
  end.
Proof.
  cbv zeta. unfold DaytonaPlugin_init.
  destruct (connect api_key d) as [[[]|e] d1]; [|by left].
  destruct (validate _) as [params|e] eqn:Hv; [|right; exists d1; split; [done|by left]].
  destruct (create params d1) as [[sb|e] d2] eqn:Hc;
    [|right; exists d1; split; [done|]; right; exists params; split; [done|by left]].
  unfold say. cbn [_daytona _sandbox deletions printed app].
  destruct (py_print (sandbox_text sb d2) d2) as [[[]|e] d3] eqn:Hp; cbn [_daytona].
  - cbn [raised]. exists d1, params, d2, sb. do 5 (split; [done|]).
    set (self := {| _daytona := d3; _sandbox := Some sb; deletions := [];
                    printed := [(sandbox_text sb d2, None)] |}).
    unfold close.
    destruct (destroy_sandbox_cases sb self eq_refl) as (prints & dels & Hpr & Hdels & Hcases).
    rewrite Hdels, Hpr. cbn [deletions printed self app].
    destruct Hcases as [(e & o & -> & -> & _)|[(e & o & _ & -> & _)
                       |[(e & o & _ & -> & _)|(_ & -> & _)]]]; try (by left).
    right. split; [done|]. exists e. apply elem_of_cons. right. apply elem_of_cons. by left.
  - right. exists d1. split; [done|]. right. exists params. split; [done|]. right.
    by exists d2, sb.
Qed.
End Lifetime.

Lemma sandbox_deleted_at_most_once_witness :
  lifecycle_inv 1
    (run_hooks [AfterTool (lit "read_file_from_daytona") {[ lit "error" := VStr (lit "boom") ]};
                Close; DestroySandbox]
       (plugin false)).
Proof.
  exact (proj1 (sandbox_deleted_at_most_once 1 (plugin false) _ eq_refl eq_refl)).
Defined.

(** ** When a call raises, and what it calls *)

Section AcceptanceFacts.
Context `{PyRuntime} {S : Type} `{Sandbox S}.

Lemma py_lower_spec (v : PyVal) :
  (has_lower v = true ∧ ∃ a, py_lower v = Return a)
  ∨ (has_lower v = false ∧ py_lower v = Raise (builtin_error AttributeError v)).
Proof. destruct v; cbn; eauto. Qed.

Lemma py_len_spec (v : PyVal) :
  (has_len v = true ∧ ∃ n, py_len v = Return n)
  ∨ (has_len v = false ∧ py_len v = Raise (builtin_error TypeError v)).
Proof. destruct v; cbn; eauto. Qed.

Lemma py_slice100_spec (v : PyVal) :
  (sliceable v = true ∧ ∃ a n, py_slice100 v = Return a ∧ py_len v = Return n)
  ∨ (sliceable v = false ∧ py_slice100 v = Raise (builtin_error TypeError v)).
Proof. destruct v; cbn; eauto 6. Qed.

(** The call returns, or it raised before it touched the sandbox. *)
Definition accepts_post (b : bool) (w : World S) : outcome dict → World S → Prop :=
  fun o w' =>
    if b then ∃ r, o = Return r
    else ∃ e, o = Raise e ∧ w' = w
              ∧ (exn_class e = AttributeError ∨ exn_class e = TypeError).

Ltac accepts_leaf :=
  lazymatch goal with
  | |- accepts_post true _ (Return ?r) _ => by exists r
  | |- accepts_post false _ (Raise ?e) _ =>
      exists e; split; [reflexivity|split; [reflexivity|cbn; tauto]]
  end.

Lemma run_async_accepts_wp (tool : Tool) (args : dict) (w : World S) :
  wp (run_async tool args) (accepts_post (accepts tool args) w) w.
Proof.
  destruct tool; unfold accepts; unfold_run.
  - destruct (py_lower_spec (get args "language" (VStr (lit "python"))))
      as [[-> [a ->]]|[-> ->]];
      destruct (py_len_spec (get args "code" (VStr []))) as [[-> [n ->]]|[-> ->]];
      cbn [andb]; repeat wp_step; accepts_leaf.
  - unfold log_command.
    destruct (py_slice100_spec (get args "command" (VStr [])))
      as [[-> (a & n & -> & ->)]|[-> ->]]; repeat wp_step; accepts_leaf.
  - destruct (py_len_spec (get args "content" (VStr []))) as [[-> [n ->]]|[-> ->]];
      repeat wp_step; accepts_leaf.
  - repeat wp_step; accepts_leaf.
  - unfold log_command.
    destruct (py_slice100_spec (get args "command" (VStr [])))
      as [[-> (a & n & -> & ->)]|[-> ->]]; repeat wp_step; accepts_leaf.
Qed.

(** X3: whether [run_async] raises is decided by the arguments alone, never
    by the sandbox: it returns exactly when [language] has [.lower()] and
    [code] has a length (execute-code), [command] can be sliced (the two
    command tools), [content] has a length (upload); reading a file always
    returns. When it raises, it raises AttributeError or TypeError and has
    made no sandbox call. *)
Theorem run_async_raises_on_arguments_only (tool : Tool) (args : dict) (w : World S) :
  if accepts tool args
  then ∃ r, fst (run_async tool args w) = Return r
  else ∃ e, run_async tool args w = (Raise e, w)
            ∧ (exn_class e = AttributeError ∨ exn_class e = TypeError).
Proof.
  pose proof (run_async_accepts_wp tool args w) as Hwp. unfold wp, accepts_post in Hwp.
  destruct (accepts tool args); [exact Hwp|].
  destruct Hwp as (e & He & Hw & Hc). exists e. split; [|exact Hc].
  destruct (run_async tool args w) as [o w']. cbn in He, Hw. by subst.
Qed.
End AcceptanceFacts.

Section Traces.
Context `{PyRuntime} {S : Type} `{Sandbox S}.

(** The shape of the sandbox calls of one run. *)
Definition trace_post (tool : Tool) (w : World S) : outcome dict → World S → Prop :=
  fun o w' =>
    (∃ full, full ∈ full_runs tool ∧ kinds (new_calls w w') `prefix_of` full)
    ∧ Forall (fun ev => ev_raised ev = None)
        (take (length (new_calls w w') - 1)%nat (new_calls w w'))
    ∧ ∀ r, o = Return r → contains r "error" = false →
           kinds (new_calls w w') ∈ full_runs tool
           ∧ Forall (fun ev => ev_raised ev = None) (new_calls w w').

Ltac pick_full :=
  first [ eexists; split; [apply elem_of_cons; left; reflexivity|eexists; reflexivity]
        | eexists; split;
          [apply elem_of_cons; right; apply elem_of_cons; left; reflexivity
          |eexists; reflexivity] ].

Ltac pick_member :=
  first [ apply elem_of_cons; left; reflexivity
        | apply elem_of_cons; right; apply elem_of_cons; left; reflexivity ].

Ltac trace_leaf :=
  unfold trace_post, new_calls; cbn [calls];
  rewrite <- ?app_assoc, ?drop_app_length, ?drop_all;
  cbn [kinds fmap list_fmap call_kind ev_call length Nat.sub take app];
  split; [pick_full|split];
  [ repeat constructor
  | let r := fresh "r" in let Hr := fresh "Hr" in let Hc := fresh "Hc" in
    intros r Hr Hc;
    first [ discriminate Hr
          | injection Hr as <-;
            first [ rewrite contains_insert_error in Hc; discriminate Hc
                  | split; [pick_member|repeat constructor] ] ] ].

Lemma run_async_trace_wp (tool : Tool) (args : dict) (w : World S) :
  wp (run_async tool args) (trace_post tool w) w.
Proof.
  destruct tool; unfold_run; repeat wp_step; trace_leaf.
Qed.

(** X4: the sandbox calls of a run are a beginning of one of the tool's
    full runs ([code_run]; or upload, [exec], delete; [exec]; upload;
    download; create session, execute in session); a call that raised is the
    last call of the run, so nothing is attempted after a fault, and the
    script of a javascript or typescript call is deleted only after both the
    upload and the [exec] returned; and a result without [error] comes only
    from a full run in which no call raised. *)
Theorem fault_ends_the_run (tool : Tool) (args : dict) (w : World S) :
  (∃ full, full ∈ full_runs tool
           ∧ kinds (new_calls w (snd (run_async tool args w))) `prefix_of` full)
  ∧ Forall (fun ev => ev_raised ev = None)
      (take (length (new_calls w (snd (run_async tool args w))) - 1)%nat
         (new_calls w (snd (run_async tool args w))))
  ∧ ∀ r, fst (run_async tool args w) = Return r → contains r "error" = false →
         kinds (new_calls w (snd (run_async tool args w))) ∈ full_runs tool
         ∧ Forall (fun ev => ev_raised ev = None)
             (new_calls w (snd (run_async tool args w))).
Proof. exact (run_async_trace_wp tool args w). Qed.
End Traces.

Section Faults.
Context `{PyRuntime} {S : Type} `{Sandbox S}.

Definition fault_post (tool : Tool) (w : World S) : outcome dict → World S → Prop :=
  fun o w' => ∀ r ev e, o = Return r → ev ∈ new_calls w w' → ev_raised ev = Some e →
                        r = failure_result tool (str_of_exn e).

Lemma run_async_fault_wp (tool : Tool) (args : dict) (w : World S) :
  wp (run_async tool args) (fault_post tool w) w.
Proof.
  destruct tool; unfold_run; repeat wp_step.
  all: unfold fault_post, new_calls; cbn [calls];
    rewrite <- ?app_assoc, ?drop_app_length, ?drop_all;
    intros r ev ex Hr Hin Hraised;
    first [discriminate Hr | injection Hr as <-];
    elem_cases Hin; cbn in Hraised;
    first [discriminate Hraised | injection Hraised as <-; reflexivity].
Qed.
End Faults.

Section Teardown.
Context `{PyRuntime} {S : Type} `{Sandbox S} {D : Type} `{Daytona D} `{Stdout D}.

Lemma failure_line_failure_result (name : str) (tool : Tool) (msg : str) :
  failure_line name (failure_result tool msg)
  = lit "Tool " ++ name ++ lit " failed: " ++ msg.
Proof.
  unfold failure_line, get.
  by destruct tool; cbn [failure_result]; rewrite lookup_insert_eq.
Qed.

(** X5: the fail-fast policy, end to end: whenever a sandbox call of a tool
    run raised [e], also the delete that cleans up after a script that ran,
    the run returns the failure shape with [str(e)]; the after-tool hook
    given that result prints [Tool <name> failed: <str(e)>]; if that
    [print] returns, the hook goes on to [destroy_sandbox], and if it
    raises, the hook raises the same exception and destroys nothing. *)
Theorem sandbox_fault_tears_down
    (tool : Tool) (args : dict) (w w' : World S) (r : dict) (ev : Event) (e : exn)
    (name : str) (self : DaytonaPlugin D) :
  run_async tool args w = (Return r, w') →
  ev ∈ new_calls w w' → ev_raised ev = Some e →
  r = failure_result tool (str_of_exn e)
  ∧ after_tool_callback name r self
    = match say (lit "Tool " ++ name ++ lit " failed: " ++ str_of_exn e) self with
      | (Return _, self1) =>
          match destroy_sandbox self1 with
          | (Return _, self2) => (Return VNone, self2)
          | (Raise e', self2) => (Raise e', self2)
          end
      | (Raise e', self1) => (Raise e', self1)
      end.
Proof.
  intros Hrun Hin Hraised.
  assert (r = failure_result tool (str_of_exn e)) as ->.
  { exact (wp_run _ _ _ _ _ (run_async_fault_wp tool args w) Hrun r ev e eq_refl Hin Hraised). }
  split; [done|].
  rewrite after_tool_callback_error by apply failure_shape_error.
  by rewrite failure_line_failure_result.
Qed.
End Teardown.

Section Sessions.
Context `{PyRuntime} {S : Type} `{Sandbox S}.

Definition session_protocol_post (self_id : N) (args : dict) (w : World S)
  : outcome dict → World S → Prop :=
  fun o w' =>
    Forall (fun ev => session_call self_id args (ev_call ev)) (new_calls w w')
    ∧ ∀ r, o = Return r → contains r "error" = false →
           ∃ out, r !! lit "output" = Some out ∧ (out = VStr [] ∨ truthy out = true).

(** X6: the start-long-running-command tool talks to one session only: it
    opens the session [long-running-<id(self)>] and runs the command in that
    same session, with the request built by
    [SessionExecuteRequest(command=command, runAsync=True)] and the timeout
    as given; and on success the [output] it returns is never [None] or
    another false value: an output that is missing or empty comes back as
    the empty string. *)
Theorem start_command_uses_one_session (self_id : N) (args : dict) (w : World S) :
  Forall (fun ev => session_call self_id args (ev_call ev))
    (new_calls w (snd (run_async (StartLongRunningCommandTool self_id) args w)))
  ∧ ∀ r, fst (run_async (StartLongRunningCommandTool self_id) args w) = Return r →
         contains r "error" = false →
         ∃ out, r !! lit "output" = Some out ∧ (out = VStr [] ∨ truthy out = true).
Proof.
  change (wp (run_async (StartLongRunningCommandTool self_id) args)
            (session_protocol_post self_id args w) w).
  unfold_run; repeat wp_step.
  all: unfold session_protocol_post, new_calls; cbn [calls];
    rewrite <- ?app_assoc, ?drop_app_length, ?drop_all;
    (split; [repeat constructor; cbn; auto|]);
    intros r Hr Hc; first [discriminate Hr | injection Hr as <-];
    first [ rewrite contains_insert_error in Hc; discriminate Hc | idtac ].
  match goal with
  | |- context [truthy (output ?x)] => destruct (truthy (output x)) eqn:Ht
  end.
  - eexists (output _). split; [reflexivity|by right].
  - exists (VStr []). split; [reflexivity|by left].
Qed.
End Sessions.

Lemma sandbox_fault_tears_down_witness :
  returned (fst (run_async ReadFileTool {[ lit "file_path" := VStr (lit "/nope") ]} w0))
  = failure_result ReadFileTool (lit "file not found")
  ∧ _sandbox
      (snd (after_tool_callback (lit "read_file_from_daytona")
              (returned (fst (run_async ReadFileTool
                                {[ lit "file_path" := VStr (lit "/nope") ]} w0)))
              (plugin true)))
    = None.
Proof.
  set (o := run_async ReadFileTool {[ lit "file_path" := VStr (lit "/nope") ]} w0).
  set (ev := {| ev_call := DownloadFile (VStr (lit "/nope"));
                ev_raised := Some (Exn ProviderError (lit "file not found")) |}).
  assert (o = (Return (returned (fst o)), snd o)) as Hrun by (vm_compute; reflexivity).
  assert (ev ∈ new_calls w0 (snd o)) as Hin.
  { replace (new_calls w0 (snd o)) with [ev] by (vm_compute; reflexivity).
    apply elem_of_cons. by left. }
  destruct (sandbox_fault_tears_down ReadFileTool _ w0 _ _ ev _
              (lit "read_file_from_daytona") (plugin true) Hrun Hin eq_refl) as [Hr Hhook].
  split; [exact Hr|]. rewrite Hhook. vm_compute. reflexivity.
Defined.

(** ** UTF-8, the other way round *)

Lemma divmod_digit (k q r : N) :
  0 < k → r < k → (q * k + r) / k = q ∧ (q * k + r) mod k = r.
Proof.
  intros Hk Hr. split.
  - symmetry. apply (N.div_unique _ k q r); [exact Hr|lia].
  - symmetry. apply (N.mod_unique _ k q r); [exact Hr|lia].
Qed.

Lemma is_cont_range (b : N) : is_cont b = true → 0x80 <= b ∧ b < 0xC0.
Proof.
  unfold is_cont. intros Hb. apply andb_prop in Hb as [H1 H2].
  apply N.leb_le in H1. apply N.ltb_lt in H2. done.
Qed.

Lemma utf8_encode_cons (c : N) (s : str) (b bs : bytes) :
  utf8_encode_cp c = Some b → utf8_encode s = Some bs →
  utf8_encode (c :: s) = Some (b ++ bs).
Proof. cbn. by intros -> ->. Qed.

Lemma utf8_encode_cp_2 (b0 b1 : N) :
  0xC2 <= b0 → b0 < 0xE0 → 0x80 <= b1 → b1 < 0xC0 →
  utf8_encode_cp ((b0 - 0xC0) * 64 + (b1 - 0x80)) = Some [b0; b1].
Proof.
  intros. unfold utf8_encode_cp.
  destruct (divmod_digit 64 (b0 - 0xC0) (b1 - 0x80)) as [Hq Hr]; [lia..|].
  rewrite Hq, Hr.
  destruct (N.ltb_spec ((b0 - 0xC0) * 64 + (b1 - 0x80)) 0x80); [lia|].
  destruct (N.ltb_spec ((b0 - 0xC0) * 64 + (b1 - 0x80)) 0x800); [|lia].
  repeat f_equal; lia.
Qed.

Lemma utf8_encode_cp_3 (b0 b1 b2 : N) :
  0xE0 <= b0 → b0 < 0xF0 → 0x80 <= b1 → b1 < 0xC0 → 0x80 <= b2 → b2 < 0xC0 →
  0x800 <= (b0 - 0xE0) * 4096 + (b1 - 0x80) * 64 + (b2 - 0x80) →
  is_surrogate ((b0 - 0xE0) * 4096 + (b1 - 0x80) * 64 + (b2 - 0x80)) = false →
  utf8_encode_cp ((b0 - 0xE0) * 4096 + (b1 - 0x80) * 64 + (b2 - 0x80)) = Some [b0; b1; b2].
Proof.
  intros ? ? ? ? ? ? Hlow Hsur. unfold utf8_encode_cp. rewrite Hsur.
  set (c := (b0 - 0xE0) * 4096 + (b1 - 0x80) * 64 + (b2 - 0x80)) in *.
  destruct (divmod_digit 64 ((b0 - 0xE0) * 64 + (b1 - 0x80)) (b2 - 0x80)) as [Hq1 Hr1];
    [lia..|].
  replace (((b0 - 0xE0) * 64 + (b1 - 0x80)) * 64 + (b2 - 0x80)) with c in Hq1, Hr1
    by (unfold c; lia).
  destruct (divmod_digit 64 (b0 - 0xE0) (b1 - 0x80)) as [Hq2 Hr2]; [lia..|].
  destruct (divmod_digit 4096 (b0 - 0xE0) ((b1 - 0x80) * 64 + (b2 - 0x80))) as [Hq3 _];
    [lia..|].
  replace ((b0 - 0xE0) * 4096 + ((b1 - 0x80) * 64 + (b2 - 0x80))) with c in Hq3
    by (unfold c; lia).
  rewrite Hq3, Hq1, Hr1, Hr2.
  destruct (N.ltb_spec c 0x80); [lia|].
  destruct (N.ltb_spec c 0x800); [lia|].
  destruct (N.ltb_spec c 0x10000); [|unfold c in *; lia].
  repeat f_equal; lia.
Qed.

Lemma utf8_encode_cp_4 (b0 b1 b2 b3 : N) :
  0xF0 <= b0 → b0 < 0xF5 → 0x80 <= b1 → b1 < 0xC0 → 0x80 <= b2 → b2 < 0xC0 →
  0x80 <= b3 → b3 < 0xC0 →
  0x10000 <= (b0 - 0xF0) * 262144 + (b1 - 0x80) * 4096 + (b2 - 0x80) * 64 + (b3 - 0x80) →
  (b0 - 0xF0) * 262144 + (b1 - 0x80) * 4096 + (b2 - 0x80) * 64 + (b3 - 0x80) < 0x110000 →
  utf8_encode_cp
    ((b0 - 0xF0) * 262144 + (b1 - 0x80) * 4096 + (b2 - 0x80) * 64 + (b3 - 0x80))
  = Some [b0; b1; b2; b3].
Proof.
  intros ? ? ? ? ? ? ? ? Hlow Hhigh. unfold utf8_encode_cp.
  set (c := (b0 - 0xF0) * 262144 + (b1 - 0x80) * 4096 + (b2 - 0x80) * 64 + (b3 - 0x80)) in *.
  destruct (divmod_digit 64 ((b0 - 0xF0) * 4096 + (b1 - 0x80) * 64 + (b2 - 0x80)) (b3 - 0x80))
    as [Hq1 Hr1]; [lia..|].
  replace (((b0 - 0xF0) * 4096 + (b1 - 0x80) * 64 + (b2 - 0x80)) * 64 + (b3 - 0x80))
    with c in Hq1, Hr1 by (unfold c; lia).
  destruct (divmod_digit 64 ((b0 - 0xF0) * 64 + (b1 - 0x80)) (b2 - 0x80)) as [_ Hr2];
    [lia..|].
  replace (((b0 - 0xF0) * 64 + (b1 - 0x80)) * 64 + (b2 - 0x80))
    with ((b0 - 0xF0) * 4096 + (b1 - 0x80) * 64 + (b2 - 0x80)) in Hr2 by lia.
  destruct (divmod_digit 4096 ((b0 - 0xF0) * 64 + (b1 - 0x80))
              ((b2 - 0x80) * 64 + (b3 - 0x80))) as [Hq3 _]; [lia..|].
  replace (((b0 - 0xF0) * 64 + (b1 - 0x80)) * 4096 + ((b2 - 0x80) * 64 + (b3 - 0x80)))
    with c in Hq3 by (unfold c; lia).
  destruct (divmod_digit 64 (b0 - 0xF0) (b1 - 0x80)) as [_ Hr4]; [lia..|].
  destruct (divmod_digit 262144 (b0 - 0xF0)
              ((b1 - 0x80) * 4096 + (b2 - 0x80) * 64 + (b3 - 0x80))) as [Hq5 _]; [lia..|].
  replace ((b0 - 0xF0) * 262144 + ((b1 - 0x80) * 4096 + (b2 - 0x80) * 64 + (b3 - 0x80)))
    with c in Hq5 by (unfold c; lia).
  rewrite Hq5, Hq3, Hr4, Hq1, Hr2, Hr1.
  destruct (N.ltb_spec c 0x80); [lia|].
  destruct (N.ltb_spec c 0x800); [lia|].
  destruct (N.ltb_spec c 0x10000); [lia|].
  destruct (N.ltb_spec c 0x110000); [|lia].
  repeat f_equal; lia.
Qed.

(** What decodes is the encoding of what it decodes to: the strict decoder
    accepts no second spelling of a text. *)
Lemma utf8_encode_of_decode (bs : bytes) (s : str) :
  utf8_decode bs = Some s → utf8_encode s = Some bs.
Proof.
  remember (length bs) as n eqn:Hn. revert bs s Hn.
  induction n as [n IH] using lt_wf_ind. intros bs s Hn Hdec.
  destruct bs as [|b0 r0]; [by injection Hdec as <-|].
  cbn [utf8_decode] in Hdec.
  destruct (N.ltb_spec b0 0x80) as [H1|H1].
  { destruct (utf8_decode r0) as [s'|] eqn:Hr0; [|done]. injection Hdec as <-.
    apply (utf8_encode_cons b0 s' [b0] r0).
    - unfold utf8_encode_cp. by destruct (N.ltb_spec b0 0x80); [|lia].
    - apply (IH (length r0)); [cbn in Hn; lia|done|done]. }
  destruct (N.ltb_spec b0 0xC2) as [H2|H2]; [done|].
  destruct (N.ltb_spec b0 0xE0) as [H3|H3].
  { destruct r0 as [|b1 r1]; [done|].
    destruct (is_cont b1) eqn:Hc1; [|done]. apply is_cont_range in Hc1 as [? ?].
    destruct (utf8_decode r1) as [s'|] eqn:Hr1; [|done]. injection Hdec as <-.
    apply (utf8_encode_cons _ s' [b0; b1] r1).
    - by apply utf8_encode_cp_2.
    - apply (IH (length r1)); [cbn in Hn; lia|done|done]. }
  destruct (N.ltb_spec b0 0xF0) as [H4|H4].
  { destruct r0 as [|b1 [|b2 r2]]; [done..|]. cbv zeta in Hdec.
    destruct (is_cont b1) eqn:Hc1; [|done]. apply is_cont_range in Hc1 as [? ?].
    destruct (is_cont b2) eqn:Hc2; [|done]. apply is_cont_range in Hc2 as [? ?].
    cbn [andb] in Hdec.
    destruct (N.leb_spec 0x800 ((b0 - 0xE0) * 4096 + (b1 - 0x80) * 64 + (b2 - 0x80)))
      as [Hlow|Hlow]; [|done].
    destruct (is_surrogate ((b0 - 0xE0) * 4096 + (b1 - 0x80) * 64 + (b2 - 0x80)))
      eqn:Hsur; [done|].
    cbn [andb negb] in Hdec.
    destruct (utf8_decode r2) as [s'|] eqn:Hr2; [|done]. injection Hdec as <-.
    apply (utf8_encode_cons _ s' [b0; b1; b2] r2).
    - by apply utf8_encode_cp_3.
    - apply (IH (length r2)); [cbn in Hn; lia|done|done]. }
  destruct (N.ltb_spec b0 0xF5) as [H5|H5]; [|done].
  destruct r0 as [|b1 [|b2 [|b3 r3]]]; [done..|]. cbv zeta in Hdec.
  destruct (is_cont b1) eqn:Hc1; [|done]. apply is_cont_range in Hc1 as [? ?].
  destruct (is_cont b2) eqn:Hc2; [|done]. apply is_cont_range in Hc2 as [? ?].
  destruct (is_cont b3) eqn:Hc3; [|done]. apply is_cont_range in Hc3 as [? ?].
  cbn [andb] in Hdec.
  destruct (N.leb_spec 0x10000
              ((b0 - 0xF0) * 262144 + (b1 - 0x80) * 4096 + (b2 - 0x80) * 64 + (b3 - 0x80)))
    as [Hlow|Hlow]; [|done].
  destruct (N.ltb_spec
              ((b0 - 0xF0) * 262144 + (b1 - 0x80) * 4096 + (b2 - 0x80) * 64 + (b3 - 0x80))
              0x110000) as [Hhigh|Hhigh]; [|done].
  cbn [andb] in Hdec.
  destruct (utf8_decode r3) as [s'|] eqn:Hr3; [|done]. injection Hdec as <-.
  apply (utf8_encode_cons _ s' [b0; b1; b2; b3] r3).
  - by apply utf8_encode_cp_4.
  - apply (IH (length r3)); [cbn in Hn; lia|done|done].
Qed.


Section Uploads.
Context `{PyRuntime} {S : Type} `{Sandbox S}.

Lemma utf8_decode_of_encode (s : str) (bs : bytes) :
  utf8_encode s = Some bs → utf8_decode bs = Some s.
Proof.
  intros Henc. destruct (utf8_roundtrip s (utf8_encode_Some s bs Henc)) as (bs' & Hbs' & Hdec).
  by simplify_eq.
Qed.

Lemma py_encode_Return (v a : PyVal) :
  py_encode v = Return a →
  ∃ text bs, v = VStr text ∧ a = VBytes bs ∧ utf8_encode text = Some bs.
Proof.
  unfold py_encode. destruct v; try done.
  destruct (utf8_encode s) as [bs|] eqn:Henc; [|done].
  intros [= <-]. eauto.
Qed.

Lemma py_decode_Return (v a : PyVal) :
  py_decode v = Return a →
  ∃ bs text, v = VBytes bs ∧ a = VStr text ∧ utf8_decode bs = Some text.
Proof.
  unfold py_decode. destruct v; try done.
  destruct (utf8_decode b) as [text|] eqn:Hdec; [|done].
  intros [= <-]. eauto.
Qed.

Definition upload_post (tool : Tool) (args : dict) (w : World S)
  : outcome dict → World S → Prop :=
  fun _ w' =>
    ∀ ev content path, ev ∈ new_calls w w' → ev_call ev = UploadFile content path →
      ∃ text bs, uploaded_text tool args = VStr text ∧ content = VBytes bs
                 ∧ utf8_decode bs = Some text
                 ∧ (tool = UploadFileTool → path = get args "file_path" (VStr [])).

(** X7: whatever a tool uploads is the UTF-8 encoding of its text argument
    ([content] for the upload tool, [code] for the execute-code tool): the
    bytes handed to the sandbox decode back to exactly that text, the upload
    tool hands the [file_path] on as it came, and a tool other than these
    two uploads nothing. *)
Theorem uploads_are_the_encoded_text (tool : Tool) (args : dict) (w : World S) :
  ∀ ev content path,
    ev ∈ new_calls w (snd (run_async tool args w)) →
    ev_call ev = UploadFile content path →
    ∃ text bs, uploaded_text tool args = VStr text ∧ content = VBytes bs
               ∧ utf8_decode bs = Some text
               ∧ (tool = UploadFileTool → path = get args "file_path" (VStr [])).
Proof.
  change (wp (run_async tool args) (upload_post tool args w) w).
  destruct tool; unfold_run; repeat wp_step.
  all: unfold upload_post, new_calls; cbn [calls];
    rewrite <- ?app_assoc, ?drop_app_length, ?drop_all;
    intros ev content path Hin Hcall;
    elem_cases Hin; cbn in Hcall; try discriminate Hcall;
    injection Hcall as <- <-;
    match goal with
    | Henc : py_encode _ = Return _ |- _ =>
        destruct (py_encode_Return _ _ Henc) as (text & bs & Hv & -> & Hbs)
    end;
    exists text, bs; cbn [uploaded_text];
    (split; [exact Hv|split; [reflexivity|split; [by apply utf8_decode_of_encode|]]]);
    first [reflexivity | intros Ht; discriminate Ht | by intros _].
Qed.

(** X8: reading a file and uploading what was read puts the same bytes
    back: if the read tool returned the content [c] of [path], then the
    sandbox had answered the download with bytes [bs], and the upload tool
    given [path] and [c] makes exactly one sandbox call, the upload of those
    same bytes [bs] to [path]. *)
Theorem read_then_upload_same_bytes
    (path : PyVal) (c : str) (w w' w2 : World S) (r : dict) :
  run_async ReadFileTool {[ lit "file_path" := path ]} w = (Return r, w') →
  r !! lit "content" = Some (VStr c) →
  ∃ bs, fst (download_file path (sandbox w)) = Return (VBytes bs)
        ∧ ev_call <$> new_calls w2
            (snd (run_async UploadFileTool
                    {[ lit "file_path" := path; lit "content" := VStr c ]} w2))
          = [UploadFile (VBytes bs) path].
Proof.
  intros Hrun Hc.
  assert (∃ bs, fst (download_file path (sandbox w)) = Return (VBytes bs)
                ∧ utf8_decode bs = Some c) as (bs & Hdown & Hdec).
  { revert Hrun. unfold run_async, ReadFileTool_run_async, bind, try_except, eval, call, ret.
    cbv zeta. change (get {[ lit "file_path" := path ]} "file_path" (VStr [])) with path.
    destruct (download_file path (sandbox w)) as [[v|e] s'].
    - destruct (py_decode v) as [a|e] eqn:Hd.
      + destruct (py_decode_Return _ _ Hd) as (bs & text & -> & -> & Hdec).
        cbn [py_len]. intros [= <- _].
        rewrite lookup_insert_eq in Hc. injection Hc as ->. by exists bs.
      + intros [= <- _]. rewrite lookup_insert_ne in Hc by (intros Hx; discriminate Hx).
        rewrite lookup_singleton_eq in Hc. discriminate Hc.
    - intros [= <- _]. rewrite lookup_insert_ne in Hc by (intros Hx; discriminate Hx).
      rewrite lookup_singleton_eq in Hc. discriminate Hc. }
  exists bs. split; [exact Hdown|].
  apply utf8_encode_of_decode in Hdec.
  unfold run_async, UploadFileTool_run_async, bind, try_except, eval, call, ret; cbv zeta.
  change (get {[ lit "file_path" := path; lit "content" := VStr c ]} "content" (VStr []))
    with (VStr c).
  change (get {[ lit "file_path" := path; lit "content" := VStr c ]} "file_path" (VStr []))
    with path.
  cbn [py_len py_encode]. rewrite Hdec.
  destruct (upload_file (VBytes bs) path (sandbox w2)) as [[[]|e] s'];
    unfold new_calls; cbn [snd calls]; by rewrite drop_app_length.
Qed.
End Uploads.

Lemma uploads_are_the_encoded_text_witness :
  ∃ text bs,
    uploaded_text UploadFileTool
      {[ lit "file_path" := VStr (lit "/tmp/f"); lit "content" := VStr [104; 233] ]}
    = VStr text
    ∧ VBytes [104; 195; 169] = VBytes bs ∧ utf8_decode bs = Some text
    ∧ (UploadFileTool = UploadFileTool →
       VStr (lit "/tmp/f")
       = get {[ lit "file_path" := VStr (lit "/tmp/f"); lit "content" := VStr [104; 233] ]}
           "file_path" (VStr [])).
Proof.
  set (args := {[ lit "file_path" := VStr (lit "/tmp/f"); lit "content" := VStr [104; 233] ]}
         : dict).
  set (ev := {| ev_call := UploadFile (VBytes [104; 195; 169]) (VStr (lit "/tmp/f"));
                ev_raised := None |}).
  assert (ev ∈ new_calls w0 (snd (run_async UploadFileTool args w0))) as Hin.
  { replace (new_calls w0 (snd (run_async UploadFileTool args w0))) with [ev]
      by (vm_compute; reflexivity).
    apply elem_of_cons. by left. }
  exact (uploads_are_the_encoded_text UploadFileTool args w0 ev _ _ Hin eq_refl).
Defined.

Lemma read_then_upload_same_bytes_witness :
  ∃ bs,
    fst (download_file (VStr (lit "/tmp/f"))
           (sandbox {| sandbox := {[ lit "/tmp/f" := [104; 195; 169] ]}; calls := [] |}))
    = Return (VBytes bs)
    ∧ ev_call <$> new_calls w0
        (snd (run_async UploadFileTool
                {[ lit "file_path" := VStr (lit "/tmp/f"); lit "content" := VStr [104; 233] ]}
                w0))
      = [UploadFile (VBytes bs) (VStr (lit "/tmp/f"))].
Proof.
  set (w := {| sandbox := {[ lit "/tmp/f" := [104; 195; 169] ]}; calls := [] |}
         : World (gmap (list N) (list N))).
  set (o := run_async ReadFileTool {[ lit "file_path" := VStr (lit "/tmp/f") ]} w).
  assert (o = (Return (returned (fst o)), snd o)) as Hrun by (vm_compute; reflexivity).
  assert (returned (fst o) !! lit "content" = Some (VStr [104; 233])) as Hc
    by (vm_compute; reflexivity).
  exact (read_then_upload_same_bytes (VStr (lit "/tmp/f")) [104; 233] w (snd o) w0
           (returned (fst o)) Hrun Hc).
Defined.

(** ** Declarations against the code *)

Section Declarations.
Context `{PyRuntime} {S : Type} `{Sandbox S}.

Lemma get_ext (args args' : dict) (key : string) (d : PyVal) :
  args !! lit key = args' !! lit key → get args key d = get args' key d.
Proof. unfold get. by intros ->. Qed.

(** X9: a tool reads the arguments it declares and no others: two argument
    mappings that agree on the declared properties of a tool get the same
    result, the same sandbox calls and the same faults from it, whatever
    else they hold. *)
Theorem undeclared_arguments_are_ignored (tool : Tool) (args args' : dict) (w : World S) :
  (∀ key, key ∈ declared tool → args !! lit key = args' !! lit key) →
  run_async tool args w = run_async tool args' w.
Proof.
  intros Hagree.
  assert (∀ key d, key ∈ declared tool → get args key d = get args' key d) as Hget.
  { intros key d Hkey. apply get_ext. by apply Hagree. }
  destruct tool; unfold_run; unfold get_opt;
    rewrite ?(Hget "code"), ?(Hget "language"), ?(Hget "env"), ?(Hget "argv"),
      ?(Hget "timeout"), ?(Hget "command"), ?(Hget "cwd"), ?(Hget "file_path"),
      ?(Hget "content")
      by (apply list_elem_of_In; cbn; tauto);
    reflexivity.
Qed.

(** The languages the declaration offers, as the strings the code compares. *)
Lemma declared_languages_supported (language : str) :
  language ∈ lit <$> declared_languages ↔ supported language.
Proof.
  change (lit <$> declared_languages)
    with [lit "python"; lit "javascript"; lit "typescript"].
  unfold supported. rewrite !elem_of_cons, elem_of_nil. tauto.
Qed.

(** X10: the languages the declaration lists are exactly the languages the
    code runs: for a call whose code is a text that can be encoded, a
    sandbox call is made if and only if the lower-case form of the language
    (python when none is given) is in the declaration's [enum]. *)
Theorem declared_languages_are_the_ones_run
    (self_id : N) (args : dict) (w : World S) (lang c : str) :
  get args "language" (VStr (lit "python")) = VStr lang →
  get args "code" (VStr []) = VStr c →
  encodable c →
  new_calls w (snd (run_async (ExecuteCodeTool self_id) args w)) ≠ []
  ↔ str_lower lang ∈ lit <$> declared_languages.
Proof.
  intros Hlang Hcode Henc.
  destruct (utf8_roundtrip c Henc) as (bs & Hbs & _).
  rewrite declared_languages_supported.
  assert (wp (run_async (ExecuteCodeTool self_id) args)
            (fun _ w' => new_calls w w' ≠ [] ↔ supported (str_lower lang)) w) as Hwp;
    [|exact Hwp].
  unfold_run. rewrite Hlang, Hcode. cbn [py_lower py_len py_encode]. rewrite Hbs.
  destruct (decide (supported (str_lower lang))) as [Hsup|Hns].
  - destruct Hsup as [Hs|[Hs|Hs]]; rewrite Hs; repeat wp_step;
      try match goal with Hx : _ = false |- _ => discriminate Hx end;
      unfold new_calls; cbn [calls]; rewrite <- ?app_assoc, drop_app_length;
      (split; [intros _; unfold supported; tauto
              |intros _ Hx; discriminate Hx]).
  - destruct (not_supported_branches _ Hns) as [Hpy Hjs].
    do 4 wp_step. rewrite Hpy, Hjs. repeat wp_step.
    unfold new_calls. rewrite drop_all. tauto.
Qed.

(** X11: the language is python when none is given: a call without
    [language] does exactly what the same call with [language] set to
    "python" does. *)
Theorem language_defaults_to_python (self_id : N) (args : dict) (w : World S) :
  args !! lit "language" = None →
  run_async (ExecuteCodeTool self_id) args w
  = run_async (ExecuteCodeTool self_id) (<[lit "language" := VStr (lit "python")]> args) w.
Proof.
  intros Hnone. unfold_run; unfold get_opt.
  rewrite get_insert_eq, !get_insert_ne by done.
  by rewrite (get_absent args "language" _ Hnone).
Qed.
End Declarations.

Lemma undeclared_arguments_are_ignored_witness :
  run_async ReadFileTool {[ lit "file_path" := VStr (lit "/tmp/f") ]} w0
  = run_async ReadFileTool
      {[ lit "file_path" := VStr (lit "/tmp/f"); lit "encoding" := VStr (lit "latin-1") ]} w0.
Proof.
  apply undeclared_arguments_are_ignored.
  intros key Hkey. cbn in Hkey. elem_cases Hkey.
  vm_compute. reflexivity.
Defined.

Lemma declared_languages_are_the_ones_run_witness :
  new_calls w0
    (snd (run_async (ExecuteCodeTool 7)
            {[ lit "language" := VStr (lit "JavaScript"); lit "code" := VStr (lit "1") ]} w0))
  ≠ []
  ↔ str_lower (lit "JavaScript") ∈ lit <$> declared_languages.
Proof.
  apply (declared_languages_are_the_ones_run 7 _ w0 (lit "JavaScript") (lit "1")).
  - vm_compute. reflexivity.
  - vm_compute. reflexivity.
  - repeat constructor.
Defined.

Lemma language_defaults_to_python_witness :
  run_async (ExecuteCodeTool 7) {[ lit "code" := VStr (lit "1") ]} w0
  = run_async (ExecuteCodeTool 7)
      (<[lit "language" := VStr (lit "python")]> {[ lit "code" := VStr (lit "1") ]}) w0.
Proof.
  apply language_defaults_to_python. vm_compute. reflexivity.
Defined.

(** X12: no declared argument is dead: for every argument a tool declares
    there is a value that makes the tool call the sandbox differently from
    the call without that argument, so the agreement on the declared
    arguments cannot be asked of fewer of them. *)
Theorem every_declared_argument_is_read (tool : Tool) (key : string) :
  key ∈ declared tool →
  ∃ v : PyVal, calls_made (run_async tool {[ lit key := v ]} w0)
               ≠ calls_made (run_async tool ∅ w0).
Proof.
  intros Hkey.
  destruct tool; cbn in Hkey; elem_cases Hkey.
  all: lazymatch goal with
       | |- context [lit "language"] => exists (VStr (lit "javascript"))
       | |- context [lit "env"] => exists (VDict [(lit "A", VStr (lit "1"))])
       | |- context [lit "argv"] => exists (VList [VStr (lit "a")])
       | |- context [lit "timeout"] => exists (VInt 5)
       | _ => exists (VStr (lit "x"))
       end.
  all: intros Heq; vm_compute in Heq; discriminate Heq.
Qed.

Lemma every_declared_argument_is_read_witness :
  ∃ v : PyVal, calls_made (run_async ExecuteCommandTool {[ lit "cwd" := v ]} w0)
               ≠ calls_made (run_async ExecuteCommandTool ∅ w0).
Proof.
  apply every_declared_argument_is_read.
  apply elem_of_cons. right. apply elem_of_cons. by left.
Defined.

(** ** The script of a javascript or typescript call *)

Section Scripts.
Context `{PyRuntime} {S : Type} `{Sandbox S}.

(** X13: the execute-code tool runs the script it uploaded and deletes the
    one it ran: for a language given as a string, every sandbox call of the
    run is [code_run] of the code as given (python), or names the one path
    [/tmp/script_<id(self)>.<js|ts>]: the upload goes there, the command is
    [node <path>] or the ts-node line with that path, followed by the
    arguments joined by blanks when there are any, it runs without a working
    directory and with [env] and [timeout] as given, and the delete removes
    that path. *)
Theorem script_is_uploaded_run_and_deleted
    (self_id : N) (args : dict) (w : World S) (lang : str) :
  get args "language" (VStr (lit "python")) = VStr lang →
  Forall (fun ev => script_call self_id args (str_lower lang) (ev_call ev))
    (new_calls w (snd (run_async (ExecuteCodeTool self_id) args w))).
Proof. apply run_async_script_calls. Qed.

End Scripts.

Lemma script_is_uploaded_run_and_deleted_witness :
  Forall (fun ev =>
            script_call 7 {[ lit "language" := VStr (lit "TypeScript");
                             lit "argv" := VList [VStr (lit "a"); VStr (lit "b")] ]}
              (str_lower (lit "TypeScript")) (ev_call ev))
    (new_calls w0
       (snd (run_async (ExecuteCodeTool 7)
               {[ lit "language" := VStr (lit "TypeScript");
                  lit "argv" := VList [VStr (lit "a"); VStr (lit "b")] ]} w0))).
Proof.
  apply script_is_uploaded_run_and_deleted. vm_compute. reflexivity.
Defined.

(** ** Which calls the sandbox outlives *)

Section Survival.
Context `{PyRuntime} {S : Type} `{Sandbox S} {D : Type} `{Daytona D} `{Stdout D}.

Lemma run_async_shape_wp (tool : Tool) (args : dict) (w : World S) :
  wp (run_async tool args) (shape_post tool) w.
Proof.
  destruct tool; unfold_run; repeat wp_step.
  all: lazymatch goal with
       | |- shape_post _ (Raise _) _ => exact I
       | |- shape_post ?t (Return ?r) _ =>
           lazymatch r with
           | context [lit "error"] => right; eapply (failure_shape_error t)
           | _ => left; apply success_shape_no_error
           end
       end.
  all: try match goal with Hd : py_decode _ = Return _ |- _ =>
              destruct (py_decode_str _ _ Hd) as [? ->] end.
  all: cbn [success_shape]; unfold exec_result; repeat eexists.
Qed.

(** After the hook has seen a result with the key [error], no sandbox is
    held, unless a [print] or the delete request raised. *)
Lemma after_tool_callback_clears_or_raised
    (name : str) (result : dict) (self : DaytonaPlugin D) :
  contains result "error" = true →
  _sandbox (snd (after_tool_callback name result self)) = None
  ∨ Exists (fun p => is_Some (snd p))
      (new_prints self (snd (after_tool_callback name result self)))
  ∨ Exists (fun d => is_Some (snd d))
      (new_deletions self (snd (after_tool_callback name result self))).
Proof.
  intros Herr. rewrite (after_tool_callback_error name result self Herr).
  destruct (say_keeps (failure_line name result) self) as (Hs & Hd & Hp).
  destruct (say (failure_line name result) self) as [[[]|e] self1];
    cbn [fst snd raised] in *.
  - pose proof (destroy_sandbox_clears_or_raised self1) as Hclear.
    destruct (destroy_sandbox_extends self1) as (prints & dels & Hp1 & Hd1 & _).
    unfold new_prints, new_deletions in *.
    destruct (destroy_sandbox self1) as [o self2]; cbn [snd] in *.
    assert (snd (match o with
                 | Return _ => (Return VNone, self2)
                 | Raise e => (Raise e, self2)
                 end) = self2) as -> by (by destruct o).
    rewrite Hp1, Hd1, !drop_app_length in Hclear.
    rewrite Hp1, Hd1, Hp, Hd, <- app_assoc, !drop_app_length.
    destruct Hclear as [Hnone|[Hpr|Hdel]]; [by left|right; left|right; right; exact Hdel].
    by apply Exists_cons_tl.
  - right. left. unfold new_prints. rewrite Hp, drop_app_length.
    apply Exists_cons_hd. by eexists.
Qed.

(** X14: the sandbox outlives a failed tool call only if a [print] or the
    delete request raised. For every result a tool returns, either it has
    the success shape, the run was a full run of the tool in which no
    sandbox call raised, and the after-tool hook returns [None] and leaves
    the plugin as it is; or it has the failure shape, whatever the cause (a
    sandbox fault, a language the tool does not know, a text that cannot be
    encoded), and after the hook the plugin holds no sandbox, unless one of
    the lines the hook printed or its delete request raised. *)
Theorem sandbox_outlives_successful_calls_only
    (tool : Tool) (args : dict) (w w' : World S) (r : dict)
    (name : str) (self : DaytonaPlugin D) :
  run_async tool args w = (Return r, w') →
  (success_shape tool r
   ∧ kinds (new_calls w w') ∈ full_runs tool
   ∧ Forall (fun ev => ev_raised ev = None) (new_calls w w')
   ∧ after_tool_callback name r self = (Return VNone, self))
  ∨ (failure_shape tool r
     ∧ (_sandbox (snd (after_tool_callback name r self)) = None
        ∨ Exists (fun p => is_Some (snd p))
            (new_prints self (snd (after_tool_callback name r self)))
        ∨ Exists (fun d => is_Some (snd d))
            (new_deletions self (snd (after_tool_callback name r self))))).
Proof.
  intros Hrun.
  pose proof (wp_run _ _ _ _ _ (run_async_shape_wp tool args w) Hrun) as Hshape.
  pose proof (wp_run _ _ _ _ _ (run_async_trace_wp tool args w) Hrun) as (_ & _ & Hfull).
  cbn [shape_post] in Hshape.
  destruct Hshape as [[Hs Hc]|[Hf Hc]].
  - left. destruct (Hfull r eq_refl Hc) as [Hk Hn].
    do 3 (split; [done|]). unfold after_tool_callback. by rewrite Hc.
  - right. split; [done|]. by apply after_tool_callback_clears_or_raised.
Qed.
End Survival.

Lemma sandbox_outlives_successful_calls_only_witness :
  (success_shape ExecuteCommandTool
     (returned (fst (run_async ExecuteCommandTool {[ lit "command" := VStr (lit "ls") ]} w0)))
   ∧ kinds (new_calls w0
              (snd (run_async ExecuteCommandTool {[ lit "command" := VStr (lit "ls") ]} w0)))
     ∈ full_runs ExecuteCommandTool
   ∧ Forall (fun ev => ev_raised ev = None)
       (new_calls w0
          (snd (run_async ExecuteCommandTool {[ lit "command" := VStr (lit "ls") ]} w0)))
   ∧ after_tool_callback (lit "execute_command_in_daytona")
       (returned (fst (run_async ExecuteCommandTool {[ lit "command" := VStr (lit "ls") ]} w0)))
       (plugin true)
     = (Return VNone, plugin true))
  ∨ (failure_shape ExecuteCommandTool
       (returned (fst (run_async ExecuteCommandTool {[ lit "command" := VStr (lit "ls") ]} w0)))
     ∧ (_sandbox
          (snd (after_tool_callback (lit "execute_command_in_daytona")
                  (returned (fst (run_async ExecuteCommandTool
                                    {[ lit "command" := VStr (lit "ls") ]} w0)))
                  (plugin true)))
        = None
        ∨ Exists (fun p => is_Some (snd p))
            (new_prints (plugin true)
               (snd (after_tool_callback (lit "execute_command_in_daytona")
                       (returned (fst (run_async ExecuteCommandTool
                                         {[ lit "command" := VStr (lit "ls") ]} w0)))
                       (plugin true))))
        ∨ Exists (fun d => is_Some (snd d))
            (new_deletions (plugin true)
               (snd (after_tool_callback (lit "execute_command_in_daytona")
                       (returned (fst (run_async ExecuteCommandTool
                                         {[ lit "command" := VStr (lit "ls") ]} w0)))
                       (plugin true)))))).
Proof.
  set (o := run_async ExecuteCommandTool {[ lit "command" := VStr (lit "ls") ]} w0).
  assert (o = (Return (returned (fst o)), snd o)) as Hrun by (vm_compute; reflexivity).
  exact (sandbox_outlives_successful_calls_only ExecuteCommandTool _ w0 _ _
           (lit "execute_command_in_daytona") (plugin true) Hrun).
Defined.

(** ** The tools the plugin hands out *)

Section GetTools.
Context `{PyRuntime} {D : Type} `{Daytona D} `{Stdout D} `{Provisioner D}.

(** X15: at any moment of a plugin built around the sandbox [sb],
    [get_tools] hands out the five tools, under five different names, all
    around the one reference the plugin holds then: [sb] as long as no
    delete request has succeeded, and no sandbox at all once one has. *)
Theorem get_tools_share_the_held_sandbox
    (sb : N) (self : DaytonaPlugin D) (hs : list HookCall) (code_id start_id : N) :
  _sandbox self = Some sb → deletions self = [] →
  let tools := get_tools (run_hooks hs self) code_id start_id in
  length tools = 5%nat
  ∧ NoDup ((fun t => tool_name (tool_kind t)) <$> tools)
  ∧ ((Forall (fun t => tool_sandbox t = Some sb) tools
      ∧ Forall (fun d => is_Some (snd d)) (deletions (run_hooks hs self)))
     ∨ (Forall (fun t => tool_sandbox t = None) tools
        ∧ last (deletions (run_hooks hs self)) = Some (sb, None))).
Proof.
  intros Hsb Hnil.
  assert (lifecycle_inv sb (run_hooks hs self)) as [_ Hinv].
  { apply lifecycle_inv_run_hooks. unfold lifecycle_inv. rewrite Hsb, Hnil.
    by repeat constructor. }
  cbv zeta. unfold get_tools. cbn [fmap list_fmap length tool_kind tool_name tool_sandbox].
  split; [reflexivity|]. split.
  - apply (bool_decide_unpack _). vm_compute. exact I.
  - destruct (_sandbox (run_hooks hs self)) as [sb'|].
    + destruct Hinv as [-> Hfailed]. left. split; [by repeat constructor|done].
    + destruct Hinv as (failed & -> & _). right. split; [by repeat constructor|].
      by rewrite last_snoc.
Qed.
End GetTools.

Lemma get_tools_share_the_held_sandbox_witness :
  length (get_tools (run_hooks [BeforeAgent; Close] (plugin true)) 7 8) = 5%nat
  ∧ NoDup ((fun t => tool_name (tool_kind t))
             <$> get_tools (run_hooks [BeforeAgent; Close] (plugin true)) 7 8)
  ∧ ((Forall (fun t => tool_sandbox t = Some 1)
        (get_tools (run_hooks [BeforeAgent; Close] (plugin true)) 7 8)
      ∧ Forall (fun d => is_Some (snd d))
          (deletions (run_hooks [BeforeAgent; Close] (plugin true))))
     ∨ (Forall (fun t => tool_sandbox t = None)
          (get_tools (run_hooks [BeforeAgent; Close] (plugin true)) 7 8)
        ∧ last (deletions (run_hooks [BeforeAgent; Close] (plugin true))) = Some (1, None))).
Proof.
  exact (get_tools_share_the_held_sandbox 1 (plugin true) [BeforeAgent; Close] 7 8
           eq_refl eq_refl).
Defined.
